(** * ddos-tracker: event buffer, threat-intel pool and threat scoring

    A shallow embedding of the in-memory core of [app.py] and
    [services/threat_scoring.py]: the bounded buffer of recent attacks,
    the identifiers handed to new attacks, the time-gated threat-intel
    pool, and the threat score with its trend and per-country breakdown.

    Python values are modelled by a small universe of JSON-like values,
    Python exceptions by a sum type, Python [float]s by the kernel's
    binary64 numbers, and module-level mutable state by explicit state
    passing. *)

From Stdlib Require Import ZArith QArith List String Ascii Bool Lia Sorted.
From Stdlib Require Import Floats.
From Stdlib Require Uint63.
From stdpp Require Import base list strings pretty gmap.

Local Open Scope string_scope.
Local Open Scope list_scope.

(* ===================================================================== *)
(** ** Python exceptions and fallible computations *)
(* ===================================================================== *)

(** The subclasses of [Exception] that the modelled code can raise. *)
Inductive exn : Type :=
| KeyError
| TypeError
| AttributeError
| ValueError
| OverflowError
| ZeroDivisionError
| DatabaseError
| RequestException.

(** A computation either raises ([inl]) or returns a value ([inr]). *)
Definition result (A : Type) : Type := (exn + A)%type.

Definition ret {A} (a : A) : result A := inr a.
Definition raise {A} (e : exn) : result A := inl e.

Definition bind {A B} (m : result A) (k : A -> result B) : result B :=
  match m with
  | inl e => inl e
  | inr a => k a
  end.

Declare Scope py_scope.
Delimit Scope py_scope with py.
Notation "'let!' x ':=' m 'in' k" := (bind m (fun x => k))
  (at level 10, x name, m at level 200, k at level 200) : py_scope.
Local Open Scope py_scope.

(** [try: body / except Exception: handler]. *)
Definition try_except {A} (body : result A) (handler : exn -> result A) : result A :=
  match body with
  | inl e => handler e
  | inr a => inr a
  end.

(** A list comprehension whose element expression may raise: the first
    exception, in iteration order, aborts the comprehension. *)
Fixpoint mapM {A B} (f : A -> result B) (l : list A) : result (list B) :=
  match l with
  | [] => ret []
  | a :: l' => let! b := f a in let! bs := mapM f l' in ret (b :: bs)
  end.

(** A comprehension with an [if] clause that may raise. *)
Fixpoint filterM {A} (p : A -> result bool) (l : list A) : result (list A) :=
  match l with
  | [] => ret []
  | a :: l' =>
      let! keep := p a in
      let! rest := filterM p l' in
      ret (if keep : bool then a :: rest else rest)
  end.

(* ===================================================================== *)
(** ** [collections.deque] with [maxlen] *)
(* ===================================================================== *)

Record deque (A : Type) : Type := Deque {
  maxlen : option nat;
  items : list A
}.
Arguments Deque {A} _ _.
Arguments maxlen {A} _.
Arguments items {A} _.

(** [deque(maxlen=n)]. *)
Definition deque_new {A} (n : option nat) : deque A := Deque n [].

(** [d.append(x)]: the item is added on the right; a bounded deque that
    has grown past [maxlen] then drops its leftmost item. *)
Definition deque_append {A} (d : deque A) (x : A) : deque A :=
  let l := items d ++ [x] in
  Deque (maxlen d)
        (match maxlen d with
         | Some n => if (n <? length l)%nat then drop 1 l else l
         | None => l
         end).

(** [len(d)] and [list(d)]. *)
Definition deque_len {A} (d : deque A) : nat := length (items d).
Definition deque_list {A} (d : deque A) : list A := items d.

(** [list(d)[-k:]]. *)
Definition last_n {A} (k : nat) (l : list A) : list A :=
  drop (length l - k) l.

(* ===================================================================== *)
(** ** Python floats and mixed integer/float arithmetic *)
(* ===================================================================== *)

Module PyFloat.

(** An integer as an unrounded binary number, exponent 0. *)
Definition Z2SF (z : Z) : spec_float :=
  match z with
  | Z0 => S754_zero false
  | Zpos p => S754_finite false p 0
  | Zneg p => S754_finite true p 0
  end.

(** [float(n)]: the nearest binary64 number, ties to even;
    [OverflowError] when the integer is too large. *)
Definition of_int (z : Z) : result float :=
  match binary_normalize prec emax z 0 false with
  | S754_infinity _ => raise OverflowError
  | sf => ret (SF2Prim sf)
  end.

(** [a / b] on two integers: the correctly rounded quotient. *)
Definition int_truediv (a b : Z) : result float :=
  if (b =? 0)%Z then raise ZeroDivisionError
  else match SFdiv prec emax (Z2SF a) (Z2SF b) with
       | S754_infinity _ => raise OverflowError
       | sf => ret (SF2Prim sf)
       end.

(** [n * x], [n / x], [x + n] and [x - n] with [n] an integer: the
    integer is converted first. *)
Definition int_mul_float (n : Z) (x : float) : result float :=
  let! fn := of_int n in ret (fn * x)%float.
Definition int_div_float (n : Z) (x : float) : result float :=
  let! fn := of_int n in ret (fn / x)%float.
Definition float_add_int (x : float) (n : Z) : result float :=
  let! fn := of_int n in ret (x + fn)%float.
Definition float_sub_int (x : float) (n : Z) : result float :=
  let! fn := of_int n in ret (x - fn)%float.

(** The exact comparison of an integer with a float, as Python does
    it (no conversion of the integer): [None] for a NaN, which makes
    every ordering test false. *)
Definition cmp_int_float (z : Z) (x : float) : option comparison :=
  match Prim2SF x with
  | S754_nan => None
  | S754_infinity s => Some (if s then Gt else Lt)
  | S754_zero _ => Some (z ?= 0)%Z
  | S754_finite s m e =>
      let v := if s then Zneg m else Zpos m in
      Some (if (0 <=? e)%Z then (z ?= v * 2 ^ e)%Z
            else (z * 2 ^ (- e) ?= v)%Z)
  end.

(** [z > x] and [z < x]. *)
Definition int_gt_float (z : Z) (x : float) : bool :=
  match cmp_int_float z x with Some Gt => true | _ => false end.
Definition int_lt_float (z : Z) (x : float) : bool :=
  match cmp_int_float z x with Some Lt => true | _ => false end.

(** [min(a, b)] on floats: the first argument unless the second is
    strictly smaller. *)
Definition min (a b : float) : float := if (b <? a)%float then b else a.

(** [int(x)]: truncation toward zero. *)
Definition to_int (x : float) : result Z :=
  match Prim2SF x with
  | S754_nan => raise ValueError
  | S754_infinity _ => raise OverflowError
  | S754_zero _ => ret 0%Z
  | S754_finite s m e =>
      let a := if (0 <=? e)%Z then (Zpos m * 2 ^ e)%Z
               else (Zpos m / 2 ^ (- e))%Z in
      ret (if s then (- a)%Z else a)
  end.

(** The integer nearest to [n / d] ([d > 0]), ties to the even one. *)
Definition round_half_even (n d : Z) : Z :=
  let q := (n / d)%Z in
  let r := (n mod d)%Z in
  match (2 * r ?= d)%Z with
  | Lt => q
  | Gt => (q + 1)%Z
  | Eq => if Z.even q then q else (q + 1)%Z
  end.

(** [round(x, ndigits)] for [ndigits >= 0]: the exact value of [x] is
    rounded half-even to a decimal with [ndigits] places, and the
    decimal is converted back to the nearest float. A non-finite [x]
    is returned as it is; a zero result keeps the sign of [x]. *)
Definition round (x : float) (ndigits : nat) : result float :=
  let p := (10 ^ Z.of_nat ndigits)%Z in
  match Prim2SF x with
  | S754_finite s m e =>
      let k := if (0 <=? e)%Z then (Zpos m * 2 ^ e * p)%Z
               else round_half_even (Zpos m * p) (2 ^ (- e)) in
      match SFdiv prec emax (Z2SF k) (Z2SF p) with
      | S754_infinity _ => raise OverflowError
      | S754_zero _ => ret (if s then neg_zero else zero)
      | sf => ret (if s then (- SF2Prim sf)%float else SF2Prim sf)
      end
  | _ => ret x
  end.

End PyFloat.

(* ===================================================================== *)
(** ** Python values *)
(* ===================================================================== *)

(** The values an attack record is built from: JSON-like data. A
    dictionary keeps its keys, which are strings, in insertion order. *)
#[warnings="-register-all"]
Inductive value : Type :=
| VNone
| VBool (b : bool)
| VInt (z : Z)
| VFloat (f : float)
| VStr (s : string)
| VList (l : list value)
| VDict (kvs : list (string * value)).

Fixpoint assoc {A} (k : string) (kvs : list (string * A)) : option A :=
  match kvs with
  | [] => None
  | (k', v) :: kvs' => if String.eqb k k' then Some v else assoc k kvs'
  end.

(** [needle in hay] on two strings. *)
Fixpoint is_substring (needle hay : string) : bool :=
  String.prefix needle hay ||
  match hay with
  | EmptyString => false
  | String _ hay' => is_substring needle hay'
  end.

(** [v[k]] with a string [k]. *)
Definition getitem (v : value) (k : string) : result value :=
  match v with
  | VDict kvs =>
      match assoc k kvs with
      | Some x => ret x
      | None => raise KeyError
      end
  | _ => raise TypeError
  end.

(** [v.get(k, default)]. *)
Definition get (v : value) (k : string) (default : value) : result value :=
  match v with
  | VDict kvs =>
      match assoc k kvs with
      | Some x => ret x
      | None => ret default
      end
  | _ => raise AttributeError
  end.

(** [k in v] with a string [k]: a key of a dictionary, an element of a
    list, a substring of a string; other values are not iterable. *)
Definition contains (k : string) (v : value) : result bool :=
  match v with
  | VDict kvs => ret (bool_decide (is_Some (assoc k kvs)))
  | VList l =>
      ret (existsb (fun x => match x with
                             | VStr s => String.eqb s k
                             | _ => false
                             end) l)
  | VStr s => ret (is_substring k s)
  | _ => raise TypeError
  end.

(** What a hashable value is compared by when it is a dictionary key or
    a set element: numbers by their numeric value ([True == 1 == 1.0]),
    strings by their characters. Lists and dictionaries are unhashable.
    The model has no object identity: a NaN key is identified with
    itself, as Python does when it meets the same object again. *)
Inductive hkey : Type :=
| HNone
| HInt (z : Z)
| HFrac (s : bool) (m : positive) (e : Z)
| HInf (s : bool)
| HNan
| HStr (s : string).

#[global] Instance hkey_eq_dec : EqDecision hkey.
Proof. solve_decision. Defined.

Definition hkey_eqb (a b : hkey) : bool := bool_decide (a = b).

Definition hkey_of_float (x : float) : hkey :=
  match Prim2SF x with
  | S754_nan => HNan
  | S754_infinity s => HInf s
  | S754_zero _ => HInt 0
  | S754_finite s m e =>
      if (0 <=? e)%Z then HInt ((if s then Zneg m else Zpos m) * 2 ^ e)
      else if (Zpos m mod 2 ^ (- e) =? 0)%Z
           then HInt ((if s then Zneg m else Zpos m) / 2 ^ (- e))
           else HFrac s m e
  end.

Definition hash_key (v : value) : result hkey :=
  match v with
  | VNone => ret HNone
  | VBool b => ret (HInt (if b then 1 else 0))
  | VInt z => ret (HInt z)
  | VFloat x => ret (hkey_of_float x)
  | VStr s => ret (HStr s)
  | VList _ | VDict _ => raise TypeError
  end.

(** [sum(l)] on integers. *)
Definition sum (l : list Z) : Z := fold_left Z.add l 0%Z.

(* ===================================================================== *)
(** ** Configuration constants of [app.py] *)
(* ===================================================================== *)

Definition MAX_ATTACKS : nat := 100.
Definition MAX_THREAT_HISTORY : nat := 60.
Definition _SCORE_PRECISION : nat := 1.
Definition _ANALYSIS_WINDOW_SECONDS : Z := 300.
Definition THREAT_LEVEL_CRITICAL : Z := 80.
Definition THREAT_LEVEL_HIGH : Z := 60.
Definition THREAT_LEVEL_MEDIUM : Z := 35.
Definition ESCALATION_THRESHOLD : Z := 10.
Definition DE_ESCALATION_THRESHOLD : Z := 10.
Definition CACHE_DURATION : Z := 90.

(* ===================================================================== *)
(** ** Threat score records, level and trend *)
(* ===================================================================== *)

Record ThreatScoreFactors : Type := {
  frequency : float;
  severity : float;
  diversity : float;
  concentration : float
}.

Record ThreatScoreResult : Type := {
  score : Z;
  level : string;
  trend : string;
  factors : ThreatScoreFactors;
  timestamp : string
}.

Definition _classify_threat_level (score : Z) : string :=
  if (THREAT_LEVEL_CRITICAL <=? score)%Z then "Critical"
  else if (THREAT_LEVEL_HIGH <=? score)%Z then "High"
  else if (THREAT_LEVEL_MEDIUM <=? score)%Z then "Medium"
  else "Low".

(** The comparison of [current_score] with the average of the recent
    scores, given their sum and their number. *)
Definition trend_of_average (esc de_esc : Z) (total : Z) (n : nat)
    (current_score : Z) : result string :=
  let! avg_recent := PyFloat.int_truediv total (Z.of_nat n) in
  let! above := PyFloat.float_add_int avg_recent esc in
  if PyFloat.int_gt_float current_score above then ret "escalating"
  else
    let! below := PyFloat.float_sub_int avg_recent de_esc in
    if PyFloat.int_lt_float current_score below then ret "de-escalating"
    else ret "stable".

Definition _calculate_trend (history : deque ThreatScoreResult)
    (current_score : Z) : result string :=
  if (deque_len history <? 5)%nat then ret "stable"
  else
    let recent_scores := map score (last_n 5 (deque_list history)) in
    trend_of_average ESCALATION_THRESHOLD DE_ESCALATION_THRESHOLD
      (sum recent_scores) (length recent_scores) current_score.

(* ===================================================================== *)
(** ** Creating attacks and the buffer of recent attacks *)
(* ===================================================================== *)

(** An entry of the [US_CITIES] table. *)
Record city : Type := {
  city_name : string;
  city_lat : float;
  city_lon : float;
  city_state : string
}.

Definition location_of_city (c : city) : value :=
  VDict [("name", VStr (city_name c));
         ("country", VStr "United States");
         ("lat", VFloat (city_lat c));
         ("lon", VFloat (city_lon c))].

(** The random draws and the clock reading of one [create_us_attack]
    call. [ipv6_source] and [ipv6_destination] are what the two
    [generate_ipv6_address] calls return; the [octet] fields are the
    [randint(1, 254)] draws of the IPv4 branch. *)
Record us_draw : Type := {
  us_origin_city : city;
  us_dest_city : city;
  us_use_ipv6 : bool;
  us_ipv6_source : string;
  us_ipv6_destination : string;
  us_octets : Z * Z * Z * Z * Z;
  us_timestamp : string;
  us_attack_type : string;
  us_severity : string;
  us_packets : Z;
  us_bandwidth : Z;
  us_duration : Z
}.

Definition create_us_attack (recent_attacks : deque value) (d : us_draw) : value :=
  let origin := location_of_city (us_origin_city d) in
  let destination := location_of_city (us_dest_city d) in
  let '(o1, o2, o3, o4, o5) := us_octets d in
  let '(source_ip, destination_ip, ip_version) :=
    if us_use_ipv6 d
    then (us_ipv6_source d, us_ipv6_destination d, "IPv6")
    else ("192.168." +:+ pretty o1 +:+ "." +:+ pretty o2,
          "10." +:+ pretty o3 +:+ "." +:+ pretty o4 +:+ "." +:+ pretty o5,
          "IPv4") in
  VDict [("id", VInt (Z.of_nat (deque_len recent_attacks) + 1));
         ("timestamp", VStr (us_timestamp d));
         ("origin", origin);
         ("destination", destination);
         ("attack_type", VStr (us_attack_type d));
         ("severity", VStr (us_severity d));
         ("packets", VInt (us_packets d));
         ("bandwidth", VStr (pretty (us_bandwidth d) +:+ " Mbps"));
         ("duration", VStr (pretty (us_duration d) +:+ " seconds"));
         ("source_ip", VStr source_ip);
         ("destination_ip", VStr destination_ip);
         ("ip_version", VStr ip_version);
         ("real_data", VBool false)].

(** The draws of one [create_real_attack] call: the two addresses
    picked from the pool, and what [get_ip_location] answers for each
    ([None] when the lookup fails). *)
Record real_draw : Type := {
  real_source_ip : string;
  real_destination_ip : string;
  real_origin : option value;
  real_destination : option value;
  real_timestamp : string;
  real_attack_type : string;
  real_severity : string;
  real_packets : Z;
  real_bandwidth : Z;
  real_duration : Z
}.

(** [threat_ips] is what [fetch_real_threat_data()] returned. *)
Definition create_real_attack (recent_attacks : deque value)
    (threat_ips : list string) (d : real_draw) : option value :=
  if (length threat_ips <? 2)%nat then None
  else
    match real_origin d, real_destination d with
    | Some origin, Some destination =>
        Some (VDict [("id", VInt (Z.of_nat (deque_len recent_attacks) + 1));
                     ("timestamp", VStr (real_timestamp d));
                     ("origin", origin);
                     ("destination", destination);
                     ("attack_type", VStr (real_attack_type d));
                     ("severity", VStr (real_severity d));
                     ("packets", VInt (real_packets d));
                     ("bandwidth", VStr (pretty (real_bandwidth d) +:+ " Mbps"));
                     ("duration", VStr (pretty (real_duration d) +:+ " seconds"));
                     ("source_ip", VStr (real_source_ip d));
                     ("destination_ip", VStr (real_destination_ip d));
                     ("ip_version", VStr "IPv4");
                     ("real_data", VBool true)])
    | _, _ => None
    end.

(** The shared state the fan-out writes: the buffer, the rows the
    database has accepted and the events sent to the subscribers. *)
Record app_state : Type := {
  recent_attacks : deque value;
  db_rows : list value;
  ws_emitted : list value
}.

Definition initial_state : app_state :=
  {| recent_attacks := deque_new (Some MAX_ATTACKS);
     db_rows := [];
     ws_emitted := [] |}.

(** [_broadcast_attack(attack)]: the append comes first and cannot
    fail; a failing database save ([db_ok = false]) or a failing emit
    ([ws_ok = false]) is logged and swallowed. *)
Definition _broadcast_attack (attack : value) (db_ok ws_ok : bool)
    (st : app_state) : app_state :=
  {| recent_attacks := deque_append (recent_attacks st) attack;
     db_rows := if db_ok then db_rows st ++ [attack] else db_rows st;
     ws_emitted := if ws_ok then ws_emitted st ++ [attack] else ws_emitted st |}.

(** [recent_attacks.pop(0)]: [deque.pop] takes no argument. *)
Definition deque_pop_index {A} (d : deque A) (i : Z) : result (deque A) :=
  raise TypeError.

(** The HTTP answer of [generate_new_attack]. *)
Inductive response : Type :=
| Json200 (attack : value)
| Json500.

(** The test of the overflow branch of [generate_new_attack], at the
    point where the handler evaluates it. *)
Definition overflow_test (recent_attacks : deque value) : bool :=
  (MAX_ATTACKS <? deque_len recent_attacks)%nat.

(** [generate_new_attack()], the handler of [/api/generate_attack]. An
    exception leaves the state as it was when it was raised. *)
Definition generate_new_attack (threat_ips : list string) (d : real_draw)
    (db_ok : bool) (st : app_state) : app_state * result response :=
  match create_real_attack (recent_attacks st) threat_ips d with
  | Some attack =>
      let st1 := {| recent_attacks := deque_append (recent_attacks st) attack;
                    db_rows := db_rows st;
                    ws_emitted := ws_emitted st |} in
      if db_ok then
        let st2 := {| recent_attacks := recent_attacks st1;
                      db_rows := db_rows st1 ++ [attack];
                      ws_emitted := ws_emitted st1 |} in
        if overflow_test (recent_attacks st2) then
          match deque_pop_index (recent_attacks st2) 0 with
          | inl e => (st2, raise e)
          | inr ra => ({| recent_attacks := ra;
                          db_rows := db_rows st2;
                          ws_emitted := ws_emitted st2 |}, ret (Json200 attack))
          end
        else (st2, ret (Json200 attack))
      else (st1, raise DatabaseError)
  | None => (st, ret Json500)
  end.

(** What can happen to the buffer: the scheduler (or a burst) creates
    an attack and broadcasts it, any caller broadcasts a record, or a
    client requests [/api/generate_attack]. *)
Inductive event : Type :=
| Broadcast (attack : value) (db_ok ws_ok : bool)
| SchedulerUs (d : us_draw) (db_ok ws_ok : bool)
| SchedulerReal (threat_ips : list string) (d : real_draw) (db_ok ws_ok : bool)
| RequestGenerate (threat_ips : list string) (d : real_draw) (db_ok : bool).

Definition step (st : app_state) (ev : event) : app_state :=
  match ev with
  | Broadcast attack db_ok ws_ok => _broadcast_attack attack db_ok ws_ok st
  | SchedulerUs d db_ok ws_ok =>
      _broadcast_attack (create_us_attack (recent_attacks st) d) db_ok ws_ok st
  | SchedulerReal ips d db_ok ws_ok =>
      match create_real_attack (recent_attacks st) ips d with
      | Some attack => _broadcast_attack attack db_ok ws_ok st
      | None => st
      end
  | RequestGenerate ips d db_ok => fst (generate_new_attack ips d db_ok st)
  end.

Definition run (evs : list event) : app_state := fold_left step evs initial_state.

(** The record an event appends to the buffer, if any. *)
Definition appended_by (st : app_state) (ev : event) : option value :=
  match ev with
  | Broadcast attack _ _ => Some attack
  | SchedulerUs d _ _ => Some (create_us_attack (recent_attacks st) d)
  | SchedulerReal ips d _ _ => create_real_attack (recent_attacks st) ips d
  | RequestGenerate ips d _ => create_real_attack (recent_attacks st) ips d
  end.

(** The records appended by a sequence of events, oldest first. *)
Fixpoint appended_from (st : app_state) (evs : list event) : list value :=
  match evs with
  | [] => []
  | ev :: evs' =>
      match appended_by st ev with
      | Some a => a :: appended_from (step st ev) evs'
      | None => appended_from (step st ev) evs'
      end
  end.

Definition appended (evs : list event) : list value :=
  appended_from initial_state evs.

(** [attack['id']] of a created attack. *)
Definition attack_id (attack : value) : result value := getitem attack "id".

(* ===================================================================== *)
(** ** The threat-intel pool *)
(* ===================================================================== *)

(** Python's ASCII whitespace, which [str.strip()] removes. *)
Definition is_space (c : ascii) : bool :=
  let n := nat_of_ascii c in
  ((9 <=? n) && (n <=? 13) || (28 <=? n) && (n <=? 32))%nat.

Fixpoint lstrip (s : string) : string :=
  match s with
  | EmptyString => EmptyString
  | String c s' => if is_space c then lstrip s' else s
  end.

Definition string_rev (s : string) : string :=
  string_of_list_ascii (rev (list_ascii_of_string s)).

(** [s.strip()]. *)
Definition strip (s : string) : string :=
  string_rev (lstrip (string_rev (lstrip s))).

(** [s.split(sep)] for a one-character separator. *)
Fixpoint str_split (sep : ascii) (s : string) : list string :=
  match s with
  | EmptyString => [EmptyString]
  | String c s' =>
      if Ascii.eqb c sep then EmptyString :: str_split sep s'
      else match str_split sep s' with
           | [] => [String c EmptyString]
           | w :: ws => String c w :: ws
           end
  end.

(** [s.startswith(p)]. *)
Definition startswith (s p : string) : bool := String.prefix p s.

Definition newline : ascii := ascii_of_nat 10.

(** The addresses of one fetched list: stripped lines that are neither
    blank nor, before stripping, start with [#]. *)
Definition parse_list (text : string) : list string :=
  map strip
      (List.filter (fun line => negb (String.eqb (strip line) "") &&
                                negb (startswith line "#"))
              (str_split newline text)).

(** What [requests.get(url, timeout=15)] does: it raises, or it returns
    a response with a status code and a body. *)
Inductive http_result : Type :=
| HttpRaise
| HttpResponse (status_code : Z) (text : string).

Definition sources : list (string * string) :=
  [("https://lists.blocklist.de/lists/ssh.txt", "SSH");
   ("https://lists.blocklist.de/lists/apache.txt", "Apache");
   ("https://lists.blocklist.de/lists/mail.txt", "Mail");
   ("https://lists.blocklist.de/lists/ftp.txt", "FTP");
   ("https://lists.blocklist.de/lists/bruteforcelogin.txt", "Brute Force");
   ("https://lists.blocklist.de/lists/strongips.txt", "Strong IPs");
   ("https://lists.blocklist.de/lists/ircbot.txt", "IRC Bot");
   ("https://lists.blocklist.de/lists/bots.txt", "Bots")].

(** The globals [threat_ips_cache] and [last_fetch_time]. *)
Record intel_state : Type := {
  threat_ips_cache : list string;
  last_fetch_time : float
}.

Definition initial_intel_state : intel_state :=
  {| threat_ips_cache := []; last_fetch_time := 0 |}.

(** One turn of the loop over [sources]: the addresses the source
    contributes to [all_ips]. *)
Definition fetch_source (net : string -> http_result) (url : string) : list string :=
  match net url with
  | HttpResponse status_code text =>
      if (status_code =? 200)%Z then parse_list text else []
  | HttpRaise => []
  end.

(** The cache test that opens [fetch_real_threat_data]. *)
Definition cache_is_fresh (current_time : float) (st : intel_state) : bool :=
  negb (bool_decide (threat_ips_cache st = [])) &&
  PyFloat.int_gt_float CACHE_DURATION (current_time - last_fetch_time st)%float.

(** [fetch_real_threat_data()], with the clock reading [current_time]
    and the network [net]. It returns the new globals, the returned
    list and the URLs it requested, in order. *)
Definition fetch_real_threat_data (net : string -> http_result)
    (current_time : float) (st : intel_state)
    : intel_state * list string * list string :=
  if cache_is_fresh current_time st then (st, threat_ips_cache st, [])
  else
    let all_ips := flat_map (fun src => fetch_source net (fst src)) sources in
    let pool := elements (list_to_set all_ips : gset string) in
    ({| threat_ips_cache := pool; last_fetch_time := current_time |},
     pool, map fst sources).

(** A source fails when the request raises or does not answer 200. *)
Definition source_fails (net : string -> http_result) (url : string) : bool :=
  match net url with
  | HttpRaise => true
  | HttpResponse status_code _ => negb (status_code =? 200)%Z
  end.

Definition all_sources_fail (net : string -> http_result) : bool :=
  forallb (fun src => source_fails net (fst src)) sources.

(* ===================================================================== *)
(** ** Threat scoring ([app.py]) *)
(* ===================================================================== *)

(** [s.replace('Z', '+00:00')]. *)
Fixpoint replace_Z (s : string) : string :=
  match s with
  | EmptyString => EmptyString
  | String c s' =>
      if Ascii.eqb c "Z"%char then "+00:00" ++ replace_Z s'
      else String c (replace_Z s')
  end.

(** [v.replace('Z', '+00:00')]: only a string has the method. *)
Definition replace_method (v : value) : result string :=
  match v with
  | VStr s => ret (replace_Z s)
  | _ => raise AttributeError
  end.

(** [Counter(l)], also the elements of [set(l)]: the distinct keys in
    order of first occurrence, each with its number of occurrences. *)
Fixpoint tally_add (k : hkey) (t : list (hkey * nat)) : list (hkey * nat) :=
  match t with
  | [] => [(k, 1%nat)]
  | (k', n) :: t' =>
      if hkey_eqb k k' then (k', S n) :: t' else (k', n) :: tally_add k t'
  end.

Definition tally (ks : list hkey) : list (hkey * nat) :=
  fold_left (fun t k => tally_add k t) ks [].

(** [Counter(l).most_common(1)[0][1]] for a non-empty [l]. *)
Definition top_count (ks : list hkey) : nat :=
  fold_right Nat.max 0%nat (map snd (tally ks)).

(** [weights.get(key, default)] on a dictionary with string keys. *)
Definition weight_get (weights : list (string * Z)) (key : value) (default : Z)
    : result Z :=
  let! k := hash_key key in
  match k with
  | HStr s => ret (match assoc s weights with Some w => w | None => default end)
  | _ => ret default
  end.

(** A comprehension [[e(a) for a in l if c(a)]]. *)
Fixpoint filter_mapM {A B} (c : A -> result bool) (e : A -> result B)
    (l : list A) : result (list B) :=
  match l with
  | [] => ret []
  | a :: l' =>
      let! keep := c a in
      if keep : bool
      then let! b := e a in
           let! bs := filter_mapM c e l' in
           ret (b :: bs)
      else filter_mapM c e l'
  end.

(** [not l]. *)
Definition is_empty {A} (l : list A) : bool :=
  match l with [] => true | _ => false end.

Definition zero_factors : ThreatScoreFactors :=
  {| frequency := 0; severity := 0; diversity := 0; concentration := 0 |}.

(** The result the score functions return for an empty buffer and in
    their exception handler; [now_iso] is
    [datetime.now(timezone.utc).isoformat()]. *)
Definition zero_score (now_iso : string) : ThreatScoreResult :=
  {| score := 0;
     level := "Low";
     trend := "stable";
     factors := zero_factors;
     timestamp := now_iso |}.

Definition _round_scores (scores : ThreatScoreFactors) : result ThreatScoreFactors :=
  let! f := PyFloat.round (frequency scores) _SCORE_PRECISION in
  let! s := PyFloat.round (severity scores) _SCORE_PRECISION in
  let! d := PyFloat.round (diversity scores) _SCORE_PRECISION in
  let! c := PyFloat.round (concentration scores) _SCORE_PRECISION in
  ret {| frequency := f; severity := s; diversity := d; concentration := c |}.

Section Scoring.

(** [datetime.fromisoformat(s).timestamp()]: the seconds since the
    epoch, or the exception raised for a string that is not an ISO
    date or a date out of range. *)
Variable iso_timestamp : string -> result float.

(** The test of the window comprehension:
    [datetime.fromisoformat(a['timestamp'].replace('Z', '+00:00')).timestamp() > recent_time]. *)
Definition in_window (recent_time : float) (a : value) : result bool :=
  let! ts := getitem a "timestamp" in
  let! s := replace_method ts in
  let! t := iso_timestamp s in
  ret (recent_time <? t)%float.

(** The attacks a score is computed from: those of the last
    [window] seconds, or the last [fallback] of the buffer when
    there is none. *)
Definition analysed_attacks (window : Z) (fallback : nat)
    (recent_attacks : deque value) (now : float) : result (list value) :=
  let! recent_time := PyFloat.float_sub_int now window in
  let! recent_attack_list :=
    filterM (in_window recent_time) (deque_list recent_attacks) in
  ret (if is_empty recent_attack_list
       then last_n fallback (deque_list recent_attacks)
       else recent_attack_list).

Definition severity_weights : list (string * Z) :=
  [("Critical", 10%Z); ("High", 6%Z); ("Medium", 3%Z); ("Low", 1%Z)].

(** Factor 1: [min(30.0, len(recent_attack_list) * 1.5)]. *)
Definition frequency_factor (l : list value) : result float :=
  let! x := PyFloat.int_mul_float (Z.of_nat (length l)) 1.5 in
  ret (PyFloat.min 30 x).

(** Factor 2: the halved sum of the severity weights, capped at 40. *)
Definition severity_factor (l : list value) : result float :=
  let! ws := mapM (fun a => let! sev := get a "severity" (VStr "Low") in
                            weight_get severity_weights sev 1) l in
  let! x := PyFloat.int_div_float (sum ws) 2 in
  ret (PyFloat.min 40 x).

(** Factor 3: twice the number of distinct attack types, capped at 15. *)
Definition diversity_factor (l : list value) : result float :=
  let! ks := mapM (fun a => let! ty := get a "attack_type" (VStr "Unknown") in
                            hash_key ty) l in
  let unique_types := length (tally ks) in
  let! x := PyFloat.int_mul_float (Z.of_nat unique_types) 2 in
  ret (PyFloat.min 15 x).

(** Factor 4: the share of the most targeted country, times 20,
    capped at 15. *)
Definition concentration_factor (l : list value) : result float :=
  let! target_countries :=
    filter_mapM (contains "destination")
                (fun a => let! dst := getitem a "destination" in
                          getitem dst "country") l in
  if is_empty target_countries then ret 0%float
  else
    let! ks := mapM hash_key target_countries in
    let top_target_count := top_count ks in
    let! share := PyFloat.int_truediv (Z.of_nat top_target_count)
                    (Z.of_nat (length target_countries)) in
    ret (PyFloat.min 15 (share * 20)%float).

(** The body of the [try] block of [calculate_threat_score]: the
    result and the history after the call. [now] is [time.time()]. *)
Definition calculate_threat_score_body (recent_attacks : deque value)
    (threat_score_history : deque ThreatScoreResult)
    (now : float) (now_iso : string)
    : result (ThreatScoreResult * deque ThreatScoreResult) :=
  if is_empty (deque_list recent_attacks)
  then ret (zero_score now_iso, threat_score_history)
  else
    let! recent_attack_list :=
      analysed_attacks _ANALYSIS_WINDOW_SECONDS 10 recent_attacks now in
    if is_empty recent_attack_list
    then ret (zero_score now_iso, threat_score_history)
    else
      let! frequency_score := frequency_factor recent_attack_list in
      let! severity_score := severity_factor recent_attack_list in
      let! diversity_score := diversity_factor recent_attack_list in
      let! concentration_score := concentration_factor recent_attack_list in
      let! total := PyFloat.to_int (frequency_score + severity_score
                                    + diversity_score + concentration_score)%float in
      let total_score := Z.min 100 total in
      let threat_level := _classify_threat_level total_score in
      let! trend := _calculate_trend threat_score_history total_score in
      let! rounded := _round_scores {| frequency := frequency_score;
                                       severity := severity_score;
                                       diversity := diversity_score;
                                       concentration := concentration_score |} in
      let result := {| score := total_score;
                       level := threat_level;
                       trend := trend;
                       factors := rounded;
                       timestamp := now_iso |} in
      ret (result, deque_append threat_score_history result).

(** [calculate_threat_score()]: the [try] block under its
    [except Exception] handler. An exception can only come before
    the append, so the handler sees the history unchanged. *)
Definition calculate_threat_score (recent_attacks : deque value)
    (threat_score_history : deque ThreatScoreResult)
    (now : float) (now_iso : string)
    : result (ThreatScoreResult * deque ThreatScoreResult) :=
  try_except
    (calculate_threat_score_body recent_attacks threat_score_history now now_iso)
    (fun e => ret (zero_score now_iso, threat_score_history)).

End Scoring.

(* ===================================================================== *)
(** ** Threat scoring ([services/threat_scoring.py]) *)
(* ===================================================================== *)

Module ThreatScoringService.

(** The attributes [__init__] reads from the configuration. *)
Record t : Type := {
  score_precision : nat;
  analysis_window : Z;
  threshold_critical : Z;
  threshold_high : Z;
  threshold_medium : Z;
  escalation_threshold : Z;
  de_escalation_threshold : Z
}.

(** The service built from an empty configuration. *)
Definition default : t :=
  {| score_precision := 1;
     analysis_window := 300;
     threshold_critical := 80;
     threshold_high := 60;
     threshold_medium := 35;
     escalation_threshold := 10;
     de_escalation_threshold := 10 |}.

Section Methods.

Variable iso_timestamp : string -> result float.
Variable self : t.

Definition _empty_score_result (now_iso : string) : ThreatScoreResult :=
  {| score := 0;
     level := "Low";
     trend := "stable";
     factors := {| frequency := 0; severity := 0;
                   diversity := 0; concentration := 0 |};
     timestamp := now_iso |}.

Definition _calculate_frequency (attacks : list value) : result float :=
  let! x := PyFloat.int_mul_float (Z.of_nat (length attacks)) 1.5 in
  ret (PyFloat.min 30 x).

Definition _calculate_severity (attacks : list value) : result float :=
  let severity_weights :=
    [("Critical", 10%Z); ("High", 6%Z); ("Medium", 3%Z); ("Low", 1%Z)] in
  let! ws := mapM (fun a => let! sev := get a "severity" (VStr "Low") in
                            weight_get severity_weights sev 1) attacks in
  let! x := PyFloat.int_div_float (sum ws) 2 in
  ret (PyFloat.min 40 x).

Definition _calculate_diversity (attacks : list value) : result float :=
  let! ks := mapM (fun a => let! ty := get a "attack_type" (VStr "Unknown") in
                            hash_key ty) attacks in
  let! x := PyFloat.int_mul_float (Z.of_nat (length (tally ks))) 2 in
  ret (PyFloat.min 15 x).

Definition _calculate_concentration (attacks : list value) : result float :=
  let! target_countries :=
    filter_mapM (contains "destination")
                (fun a => let! dst := getitem a "destination" in
                          getitem dst "country") attacks in
  if is_empty target_countries then ret 0%float
  else
    let! ks := mapM hash_key target_countries in
    let! share := PyFloat.int_truediv (Z.of_nat (top_count ks))
                    (Z.of_nat (length target_countries)) in
    ret (PyFloat.min 15 (share * 20)%float).

Definition _classify_level (score : Z) : string :=
  if (threshold_critical self <=? score)%Z then "Critical"
  else if (threshold_high self <=? score)%Z then "High"
  else if (threshold_medium self <=? score)%Z then "Medium"
  else "Low".

Definition _calculate_trend (history : deque ThreatScoreResult)
    (current_score : Z) : result string :=
  if (deque_len history <? 5)%nat then ret "stable"
  else
    let recent_scores := map score (last_n 5 (deque_list history)) in
    trend_of_average (escalation_threshold self) (de_escalation_threshold self)
      (sum recent_scores) (length recent_scores) current_score.

Definition _round_factors (fs : ThreatScoreFactors) : result ThreatScoreFactors :=
  let! f := PyFloat.round (frequency fs) (score_precision self) in
  let! s := PyFloat.round (severity fs) (score_precision self) in
  let! d := PyFloat.round (diversity fs) (score_precision self) in
  let! c := PyFloat.round (concentration fs) (score_precision self) in
  ret {| frequency := f; severity := s; diversity := d; concentration := c |}.

(** The body of the [try] block of [calculate_score]. *)
Definition calculate_score_body (recent_attacks : list value)
    (score_history : deque ThreatScoreResult)
    (now : float) (now_iso : string) : result ThreatScoreResult :=
  if is_empty recent_attacks then ret (_empty_score_result now_iso)
  else
    let! recent_time := PyFloat.float_sub_int now (analysis_window self) in
    let! filtered := filterM (in_window iso_timestamp recent_time) recent_attacks in
    let filtered_attacks :=
      if is_empty filtered then last_n 10 recent_attacks else filtered in
    if is_empty filtered_attacks then ret (_empty_score_result now_iso)
    else
      let! frequency_score := _calculate_frequency filtered_attacks in
      let! severity_score := _calculate_severity filtered_attacks in
      let! diversity_score := _calculate_diversity filtered_attacks in
      let! concentration_score := _calculate_concentration filtered_attacks in
      let! total := PyFloat.to_int (frequency_score + severity_score
                                    + diversity_score + concentration_score)%float in
      let total_score := Z.min 100 total in
      let threat_level := _classify_level total_score in
      let! trend := _calculate_trend score_history total_score in
      let! rounded := _round_factors {| frequency := frequency_score;
                                        severity := severity_score;
                                        diversity := diversity_score;
                                        concentration := concentration_score |} in
      ret {| score := total_score;
             level := threat_level;
             trend := trend;
             factors := rounded;
             timestamp := now_iso |}.

Definition calculate_score (recent_attacks : list value)
    (score_history : deque ThreatScoreResult)
    (now : float) (now_iso : string) : result ThreatScoreResult :=
  try_except
    (calculate_score_body recent_attacks score_history now now_iso)
    (fun e => ret (_empty_score_result now_iso)).

End Methods.

End ThreatScoringService.

(* ===================================================================== *)
(** ** Per-country threat scores *)
(* ===================================================================== *)

Module CountryThreatScore.
Record t : Type := {
  country : value;
  score : Z;
  attack_count : Z;
  critical_count : Z
}.
End CountryThreatScore.

(** [country_attacks[country].append(attack)] on the [defaultdict]: the
    groups keep the order in which their countries first appeared, and
    a group keeps the first key it was created with. *)
Fixpoint group_add (country : value) (k : hkey) (attack : value)
    (groups : list (value * hkey * list value)) : list (value * hkey * list value) :=
  match groups with
  | [] => [(country, k, [attack])]
  | (c, k', attacks) :: groups' =>
      if hkey_eqb k k' then (c, k', attacks ++ [attack]) :: groups'
      else (c, k', attacks) :: group_add country k attack groups'
  end.

(** The country under which an attack is grouped: [None] when it has
    no ['destination'] or its destination has no ['country']. *)
Definition destination_country (attack : value) : result (option value) :=
  let! has_destination := contains "destination" attack in
  if has_destination : bool then
    let! dst := getitem attack "destination" in
    let! has_country := contains "country" dst in
    if has_country : bool then
      let! dst' := getitem attack "destination" in
      let! c := getitem dst' "country" in
      ret (Some c)
    else ret None
  else ret None.

(** The loop that fills [country_attacks]. *)
Fixpoint group_by_country (attacks : list value)
    (groups : list (value * hkey * list value))
    : result (list (value * hkey * list value)) :=
  match attacks with
  | [] => ret groups
  | attack :: attacks' =>
      let! oc := destination_country attack in
      match oc with
      | Some c =>
          let! k := hash_key c in
          group_by_country attacks' (group_add c k attack groups)
      | None => group_by_country attacks' groups
      end
  end.

Definition country_severity_weights : list (string * Z) :=
  [("Critical", 4%Z); ("High", 3%Z); ("Medium", 2%Z); ("Low", 1%Z)].

(** [severity_weights.get(a.get('severity', 'Low'), 0)]. *)
Definition country_severity_weight (a : value) : result Z :=
  let! sev := get a "severity" (VStr "Low") in
  weight_get country_severity_weights sev 0.

(** [a.get('severity') == 'Critical']. *)
Definition is_critical (a : value) : result bool :=
  let! sev := get a "severity" VNone in
  ret (match sev with VStr s => String.eqb s "Critical" | _ => false end).

(** One turn of the loop over [country_attacks.items()]. *)
Definition country_entry (country : value) (attacks : list value)
    : result CountryThreatScore.t :=
  let attack_count := Z.of_nat (length attacks) in
  let! ws := mapM country_severity_weight attacks in
  let severity_sum := sum ws in
  let score := Z.min 100 (attack_count * 5 + severity_sum * 3) in
  let! crit := mapM is_critical attacks in
  ret {| CountryThreatScore.country := country;
         CountryThreatScore.score := score;
         CountryThreatScore.attack_count := attack_count;
         CountryThreatScore.critical_count :=
           Z.of_nat (length (List.filter (fun b : bool => b) crit)) |}.

(** [l.sort(key=lambda x: x['score'], reverse=True)]: a stable sort,
    entries of equal score keep their order. *)
Fixpoint insert_desc (x : CountryThreatScore.t) (l : list CountryThreatScore.t)
    : list CountryThreatScore.t :=
  match l with
  | [] => [x]
  | y :: l' =>
      if (CountryThreatScore.score x <? CountryThreatScore.score y)%Z
      then y :: insert_desc x l'
      else x :: y :: l'
  end.

Definition sort_desc (l : list CountryThreatScore.t) : list CountryThreatScore.t :=
  fold_right insert_desc [] l.

Section CountryScores.

Variable iso_timestamp : string -> result float.

(** The body of the [try] block of [calculate_country_threat_scores]. *)
Definition calculate_country_threat_scores_body (recent_attacks : deque value)
    (now : float) : result (list CountryThreatScore.t) :=
  if is_empty (deque_list recent_attacks) then ret []
  else
    let! recent_attack_list :=
      analysed_attacks iso_timestamp 600 30 recent_attacks now in
    if is_empty recent_attack_list then ret []
    else
      let! country_attacks := group_by_country recent_attack_list [] in
      let! country_scores :=
        mapM (fun g => country_entry (fst (fst g)) (snd g)) country_attacks in
      ret (take 10 (sort_desc country_scores)).

(** [calculate_country_threat_scores()]: any exception gives [[]]. *)
Definition calculate_country_threat_scores (recent_attacks : deque value)
    (now : float) : list CountryThreatScore.t :=
  match calculate_country_threat_scores_body recent_attacks now with
  | inl _ => []
  | inr l => l
  end.

End CountryScores.


(* ===================================================================== *)
(** ** Sample data *)
(* ===================================================================== *)

Definition sample_city (name state : string) : city :=
  {| city_name := name; city_lat := 40.5; city_lon := -74.25; city_state := state |}.

Definition sample_us_draw : us_draw :=
  {| us_origin_city := sample_city "New York" "NY";
     us_dest_city := sample_city "Chicago" "IL";
     us_use_ipv6 := false;
     us_ipv6_source := "";
     us_ipv6_destination := "";
     us_octets := (1, 2, 3, 4, 5)%Z;
     us_timestamp := "2025-01-01T00:00:00";
     us_attack_type := "Port Scan";
     us_severity := "High";
     us_packets := 5000;
     us_bandwidth := 10;
     us_duration := 10 |}.

(** The scheduler creating and broadcasting [n] domestic attacks. *)
Definition sample_us_events (n : nat) : list event :=
  repeat (SchedulerUs sample_us_draw true true) n.

(** The ['id'] of every record a sequence of events appends. *)
Definition assigned_ids (evs : list event) : list (result value) :=
  map attack_id (appended evs).

(** A pool with one address, last refreshed at time 0 or at time 950. *)
Definition sample_pool (last : float) : intel_state :=
  {| threat_ips_cache := ["198.51.100.7"]; last_fetch_time := last |}.

(** A network on which every request raises. *)
Definition failing_net : string -> http_result := fun _ => HttpRaise.

(** A score record with a given score. *)
Definition sample_record (s : Z) : ThreatScoreResult :=
  {| score := s;
     level := _classify_threat_level s;
     trend := "stable";
     factors := zero_factors;
     timestamp := "2025-01-01T00:00:00+00:00" |}.

(** A history of five records, each with the score 50. *)
Definition history_of_fifties : deque ThreatScoreResult :=
  Deque (Some MAX_THREAT_HISTORY) (repeat (sample_record 50) 5).

(* ===================================================================== *)
(** ** The trend as the specification words it *)
(* ===================================================================== *)

(** The arithmetic mean of the last five scores of the history. *)
Definition mean_of_last_5 (history : deque ThreatScoreResult) : Q :=
  sum (map score (last_n 5 (deque_list history))) # 5.

(** The scores of the records are between 0 and 100. *)
Definition scores_in_range (history : deque ThreatScoreResult) : Prop :=
  Forall (fun r => (0 <= score r <= 100)%Z) (deque_list history).

(** The trend decided on integers: [total > sum/5 + 10] is
    [5 * total > sum + 50]. *)
Definition trend_by_sum (total current_score : Z) : string :=
  if (total + 50 <? 5 * current_score)%Z then "escalating"
  else if (5 * current_score <? total - 50)%Z then "de-escalating"
  else "stable".

(** The float computation agrees with [trend_by_sum] for one sum of
    five scores and every score from 0 to 100. *)
Definition trend_row_agrees (total : nat) : bool :=
  forallb (fun current_score =>
             match trend_of_average 10 10 (Z.of_nat total) 5
                                    (Z.of_nat current_score) with
             | inr r => String.eqb r (trend_by_sum (Z.of_nat total)
                                                   (Z.of_nat current_score))
             | inl _ => false
             end)
          (seq 0 101).

(* ===================================================================== *)
(** ** The per-country score as the specification words it *)
(* ===================================================================== *)

(** The key of the country an attack targets, when it names one. *)
Definition country_key (a : value) : option hkey :=
  match destination_country a with
  | inr (Some c) =>
      match hash_key c with
      | inr k => Some k
      | inl _ => None
      end
  | _ => None
  end.

(** [a] targets the country with key [k]. *)
Definition targets (k : hkey) (a : value) : bool :=
  bool_decide (country_key a = Some k).

(** The attacks of [l] that target the country [c]. *)
Definition attacks_on (c : value) (l : list value) : list value :=
  match hash_key c with
  | inr k => List.filter (targets k) l
  | inl _ => []
  end.

(** The severity weights Critical = 4, High = 3, Medium = 2, Low = 1;
    an attack without a severity counts as Low, any other severity
    weighs nothing. *)
Definition stated_severity_weight (a : value) : Z :=
  match get a "severity" (VStr "Low") with
  | inr (VStr s) =>
      if String.eqb s "Critical" then 4
      else if String.eqb s "High" then 3
      else if String.eqb s "Medium" then 2
      else if String.eqb s "Low" then 1
      else 0
  | _ => 0
  end.

(** [min(100, attack_count * 5 + severity_sum * 3)] over the attacks of
    [l] that target [c]. *)
Definition stated_country_score (c : value) (l : list value) : Z :=
  let attacks := attacks_on c l in
  Z.min 100 (Z.of_nat (length attacks) * 5
             + sum (map stated_severity_weight attacks) * 3).

(** No entry has a higher score than an entry before it. *)
Definition sorted_by_score_desc (l : list CountryThreatScore.t) : Prop :=
  forall (i j : nat) (x y : CountryThreatScore.t),
    i < j -> l !! i = Some x -> l !! j = Some y ->
    (CountryThreatScore.score y <= CountryThreatScore.score x)%Z.

(** [x] does not score less than [y]. *)
Definition score_ge (x y : CountryThreatScore.t) : Prop :=
  (CountryThreatScore.score y <= CountryThreatScore.score x)%Z.

(** The groups of [group_by_country] after the attacks [seen]: one
    group per country key met, holding the attacks that target it. *)
Definition groups_of (groups : list (value * hkey * list value))
    (seen : list value) : Prop :=
  NoDup (map (fun g => snd (fst g)) groups) /\
  (forall c k attacks, In (c, k, attacks) groups ->
     hash_key c = inr k /\ attacks = List.filter (targets k) seen) /\
  (forall a k, In a seen -> country_key a = Some k ->
     In k (map (fun g => snd (fst g)) groups)).

(** A parser of timestamps that knows two instants. *)
Definition sample_iso_timestamp (s : string) : result float :=
  if String.eqb s "2025-01-01T00:00:00+00:00" then ret 1735689600%float
  else if String.eqb s "2025-01-01T00:04:00+00:00" then ret 1735689840%float
  else raise ValueError.

(** A well-formed attack on a country, and the buffer holding some. *)
Definition sample_attack (ts sev ty c : string) : value :=
  VDict [("id", VInt 1);
         ("timestamp", VStr ts);
         ("destination", VDict [("name", VStr "x"); ("country", VStr c)]);
         ("attack_type", VStr ty);
         ("severity", VStr sev)].

Definition sample_buffer (l : list value) : deque value :=
  Deque (Some MAX_ATTACKS) l.

Definition empty_history : deque ThreatScoreResult :=
  deque_new (Some MAX_THREAT_HISTORY).

(* ===================================================================== *)
(** ** Signs of floats *)
(* ===================================================================== *)

(** A binary number that is not below zero (a NaN counts: converting
    it to an integer raises). *)
Definition not_negative (sf : spec_float) : Prop :=
  match sf with
  | S754_finite true _ _ | S754_infinity true => False
  | _ => True
  end.

Definition nonneg (x : float) : Prop := not_negative (Prim2SF x).

(** The entries of the buffer whose timestamp lies within the last
    [window] seconds. *)
Definition time_window (iso_timestamp : string -> result float) (window : Z)
    (recent_attacks : deque value) (now : float) : list value :=
  List.filter (fun a =>
                 match PyFloat.float_sub_int now window with
                 | inr recent_time =>
                     match in_window iso_timestamp recent_time a with
                     | inr b => b
                     | inl _ => false
                     end
                 | inl _ => false
                 end)
              (deque_list recent_attacks).

(** A buffer holding one attack on France, dated 2025-01-01T00:00:00Z. *)
Definition buffer_with_old_attack : deque value :=
  sample_buffer [sample_attack "2025-01-01T00:00:00Z" "Low" "Port Scan" "France"].

(* ===================================================================== *)
(** ** Repeated score computations *)
(* ===================================================================== *)

(** What one call of [calculate_threat_score] reads: the buffer as it
    is then, [time.time()] and the UTC clock. The callers are the
    background updater and the handlers of [/api/threat/score] and
    [/api/threat/history]. *)
Record score_call : Type := {
  call_buffer : deque value;
  call_now : float;
  call_now_iso : string
}.

(** [threat_score_history] after one call. *)
Definition history_step (iso_timestamp : string -> result float)
    (history : deque ThreatScoreResult) (c : score_call)
    : deque ThreatScoreResult :=
  match calculate_threat_score iso_timestamp (call_buffer c) history
          (call_now c) (call_now_iso c) with
  | inr (_, history') => history'
  | inl _ => history
  end.

(** [threat_score_history] after a sequence of calls, from the start of
    the process. *)
Definition history_after (iso_timestamp : string -> result float)
    (calls : list score_call) : deque ThreatScoreResult :=
  fold_left (history_step iso_timestamp) calls
            (deque_new (Some MAX_THREAT_HISTORY)).

(** The levels in ascending order. *)
Definition level_rank (level : string) : nat :=
  if String.eqb level "Critical" then 3
  else if String.eqb level "High" then 2
  else if String.eqb level "Medium" then 1
  else 0.

(** A record as the score functions build it: the level is the one of
    its score, and the trend is one of the three trends. *)
Definition well_formed_record (r : ThreatScoreResult) : Prop :=
  (0 <= score r <= 100)%Z /\
  level r = _classify_threat_level (score r) /\
  (trend r = "stable" \/ trend r = "escalating" \/ trend r = "de-escalating").

(** The exact value of a finite float, as a fraction. *)
Definition float_to_Q (x : float) : option Q :=
  match Prim2SF x with
  | S754_zero _ => Some 0%Q
  | S754_finite s m e =>
      let v := if s then Zneg m else Zpos m in
      Some (if (0 <=? e)%Z then inject_Z (v * 2 ^ e)
            else (v # Z.to_pos (2 ^ (- e))))
  | _ => None
  end.

(** The record [calculate_threat_score] returns for a buffer holding
    [l], on an empty history. *)
Definition sample_result (l : list value) (now : float) : ThreatScoreResult :=
  match calculate_threat_score sample_iso_timestamp (sample_buffer l)
          empty_history now "2025-01-01T00:05:00+00:00" with
  | inr (r, _) => r
  | inl _ => zero_score ""
  end.

Definition three_attacks : list value :=
  [sample_attack "2025-01-01T00:04:00Z" "Critical" "HTTP Flood" "Japan";
   sample_attack "2025-01-01T00:04:00Z" "High" "Port Scan" "Japan";
   sample_attack "2025-01-01T00:04:00Z" "Low" "HTTP Flood" "Brazil"].

(** The weight of an attack in the severity factor: Critical 10, High 6,
    Medium 3, Low 1; an attack without a severity counts as Low, and
    so does any other severity. *)
Definition stated_score_weight (a : value) : Z :=
  match get a "severity" (VStr "Low") with
  | inr (VStr s) =>
      if String.eqb s "Critical" then 10
      else if String.eqb s "High" then 6
      else if String.eqb s "Medium" then 3
      else 1
  | _ => 1
  end.

(** The float [x] is exactly the fraction [q]. *)
Definition float_is (x : float) (q : Q) : Prop :=
  match float_to_Q x with
  | Some q' => (q' == q)%Q
  | None => False
  end.

Definition float_is_b (x : result float) (q : Q) : bool :=
  match x with
  | inr x' =>
      match float_to_Q x' with
      | Some q' => Qeq_bool q' q
      | None => false
      end
  | inl _ => false
  end.

(** Half-steps up to a cap: [min(cap, k / 2)]. *)
Definition capped_half (cap k : Z) : Q :=
  if (k <=? 2 * cap)%Z then (k # 2) else inject_Z cap.

(** The checks behind the exactness of the factors: every count up to
    100 and every weight sum up to 1000. *)
Definition frequency_exact_upto (n : nat) : bool :=
  forallb (fun k =>
             float_is_b (let! x := PyFloat.int_mul_float (Z.of_nat k) 1.5 in
                         ret (PyFloat.min 30 x))
                        (capped_half 30 (3 * Z.of_nat k)))
          (seq 0 (S n)).

Definition severity_exact_upto (n : nat) : bool :=
  forallb (fun k =>
             float_is_b (let! x := PyFloat.int_div_float (Z.of_nat k) 2 in
                         ret (PyFloat.min 40 x))
                        (capped_half 40 (Z.of_nat k)))
          (seq 0 (S n)).

Definition diversity_exact_upto (n : nat) : bool :=
  forallb (fun k =>
             float_is_b (let! x := PyFloat.int_mul_float (Z.of_nat k) 2 in
                         ret (PyFloat.min 15 x))
                        (if (k <=? 7)%nat then inject_Z (2 * Z.of_nat k)
                         else 15%Q))
          (seq 0 (S n)).

(** [a] names the destination country [c]: it has a ['destination'],
    and the destination has the ['country'] [c]. *)
Definition targets_country (c : value) (a : value) : Prop :=
  contains "destination" a = inr true /\
  (let! dst := getitem a "destination" in getitem dst "country") = inr c.

(** The concentration of [n] attacks on one country, for every [n] from
    1 to [upto]. *)
Definition single_country_capped (upto : nat) : bool :=
  forallb (fun n =>
             float_is_b (let! share := PyFloat.int_truediv (Z.of_nat n) (Z.of_nat n) in
                         ret (PyFloat.min 15 (share * 20)%float))
                        15%Q)
          (seq 1 upto).

(* ===================================================================== *)
(** ** The fan-out over a run, and connecting clients *)
(* ===================================================================== *)


(** What [emit] sends to a client. *)
Inductive ws_message : Type :=
| ConnectionResponse (status message : string)
| InitialAttacks (attacks : list value).

(** [d[-k:]] on a deque: a deque takes no slice. *)
Definition deque_slice_last {A} (d : deque A) (k : nat) : result (list A) :=
  raise TypeError.

(** [handle_connect()]: the messages emitted to the connecting client,
    in order. The emits themselves are taken to succeed. *)
Definition handle_connect (recent_attacks : deque value) : list ws_message :=
  let connected :=
    [ConnectionResponse "connected" "Successfully connected to attack tracker"] in
  let body : list ws_message * result unit :=
    if is_empty (deque_list recent_attacks) then (connected, ret tt)
    else
      match deque_slice_last recent_attacks 10 with
      | inr last => (connected ++ [InitialAttacks last], ret tt)
      | inl e => (connected, raise e)
      end in
  match snd body with
  | inr _ => fst body
  | inl _ =>
      fst body ++ [ConnectionResponse "error" "Connection established with errors"]
  end.

Definition is_initial_attacks (m : ws_message) : bool :=
  match m with InitialAttacks _ => true | ConnectionResponse _ _ => false end.

(* ===================================================================== *)
(** ** Stripping, on lists of characters *)
(* ===================================================================== *)

Fixpoint lstrip_list (l : list ascii) : list ascii :=
  match l with
  | [] => []
  | c :: l' => if is_space c then lstrip_list l' else l
  end.

(** A network on which one list answers with two addresses, one of them
    twice, and the others fail. *)
Definition one_list_net (url : string) : http_result :=
  if String.eqb url "https://lists.blocklist.de/lists/ssh.txt"
  then HttpResponse 200
         ("# sshd" ++ String newline (" 203.0.113.9 " ++ String newline
          ("198.51.100.7" ++ String newline "203.0.113.9")))
  else HttpResponse 503 "".

(* ===================================================================== *)
(** ** The geolocation cache *)
(* ===================================================================== *)

(** What the request to the geolocation service does: it raises, or it
    answers with a status code and a body; [None] is a body that
    [response.json()] cannot decode. *)
Inductive geo_result : Type :=
| GeoRaise
| GeoResponse (status_code : Z) (json : option value).

(** [data.get('status') == 'success']. *)
Definition is_success (v : value) : bool :=
  match v with
  | VStr s => String.eqb s "success"
  | _ => false
  end.

(** The [try] block of [get_ip_location]: the location to cache and
    return, [None] when the answer is not a success, or the exception
    raised on the way. *)
Definition geo_lookup (geo : string -> geo_result) (ip : string)
    : result (option value) :=
  match geo ip with
  | GeoRaise => raise RequestException
  | GeoResponse status_code json =>
      if (status_code =? 200)%Z then
        match json with
        | None => raise ValueError
        | Some data =>
            let! status := get data "status" VNone in
            if is_success status then
              let! city := get data "city" (VStr "Unknown") in
              let! country := get data "country" (VStr "Unknown") in
              let! lat := get data "lat" (VInt 0) in
              let! lon := get data "lon" (VInt 0) in
              let! isp := get data "isp" (VStr "Unknown") in
              let! org := get data "org" (VStr "Unknown") in
              ret (Some (VDict [("name", city); ("country", country);
                                ("lat", lat); ("lon", lon);
                                ("isp", isp); ("org", org)]))
            else ret None
        end
      else ret None
  end.

(** [get_ip_location(ip)] on the global [ip_cache]: the cache after the
    call, the location returned ([None] for Python's [None]) and the
    addresses requested from the service. *)
Definition get_ip_location (geo : string -> geo_result) (ip : string)
    (ip_cache : gmap string value) : gmap string value * option value * list string :=
  match ip_cache !! ip with
  | Some location => (ip_cache, Some location, [])
  | None =>
      match geo_lookup geo ip with
      | inr (Some location) => (<[ip := location]> ip_cache, Some location, [ip])
      | inr None => (ip_cache, None, [ip])
      | inl _ => (ip_cache, None, [ip])
      end
  end.

(** A service that knows one address. *)
Definition sample_geo (ip : string) : geo_result :=
  if String.eqb ip "203.0.113.9"
  then GeoResponse 200
         (Some (VDict [("status", VStr "success"); ("country", VStr "Japan");
                       ("city", VStr "Tokyo")]))
  else GeoResponse 200 (Some (VDict [("status", VStr "fail")])).

(** A service that is down. *)
Definition failing_geo : string -> geo_result := fun _ => GeoRaise.

(* ===================================================================== *)
(** ** The intensity of the generator *)
(* ===================================================================== *)

(** [max(a, b)] on floats: the first argument unless the second is
    strictly greater. *)
Definition float_max (a b : float) : float := if (a <? b)%float then b else a.

(** [x / y] on floats. *)
Definition float_truediv (x y : float) : result float :=
  if (y =? 0)%float then raise ZeroDivisionError else ret (x / y)%float.

(** The floats Python reads for [0.3], [0.15] and [0.8]. *)
Definition f0_3 : float := 0x1.3333333333333p-2.
Definition f0_15 : float := 0x1.3333333333333p-3.
Definition f0_8 : float := 0x1.999999999999ap-1.

(** [_update_intensity(intensity, trend)]; [delta] is the draw
    [random.uniform(-0.15, 0.15)]. *)
Definition _update_intensity (delta : float) (intensity trend : float)
    : float * float :=
  let trend := (trend + delta)%float in
  let trend := float_max (-0.5) (PyFloat.min 0.5 trend) in
  let intensity := (intensity + trend)%float in
  let intensity := float_max f0_3 (PyFloat.min 2 intensity) in
  (intensity, trend).

(** [_calculate_sleep_time(intensity)]; [sleep_variation] is the draw
    [random.uniform(-0.8, 0.8)]. *)
Definition _calculate_sleep_time (sleep_variation : float) (intensity : float)
    : result float :=
  let! base_sleep := float_truediv 3 intensity in
  ret (float_max 1 (PyFloat.min 5 (base_sleep + sleep_variation)%float)).

(** The intensity, the trend and the sleep times of the iterations of
    [generate_attacks_background], given the two draws of each. The
    loop stops at the first sleep time that cannot be computed. *)
Fixpoint generator_iterations (draws : list (float * float))
    (intensity trend : float) : result (float * float * list float) :=
  match draws with
  | [] => ret (intensity, trend, [])
  | (delta, sleep_variation) :: draws' =>
      let '(intensity', trend') := _update_intensity delta intensity trend in
      let! sleep_time := _calculate_sleep_time sleep_variation intensity' in
      let! rest := generator_iterations draws' intensity' trend' in
      ret (fst (fst rest), snd (fst rest), sleep_time :: snd rest)
  end.

(** [lo <= x <= hi] on floats. *)
Definition float_between (lo hi x : float) : Prop :=
  (lo <=? x)%float = true /\ (x <=? hi)%float = true.

(* ===================================================================== *)
(** ** Input validation ([app.py] and [utils/validators.py]) *)
(* ===================================================================== *)

Definition MAX_TIME_RANGE_MINUTES : Z := 1440.

(** ASCII [str.lower()]. *)
Definition lower_char (c : ascii) : ascii :=
  let n := nat_of_ascii c in
  if ((65 <=? n) && (n <=? 90))%nat then ascii_of_nat (n + 32) else c.

Fixpoint lower (s : string) : string :=
  match s with
  | EmptyString => EmptyString
  | String c s' => String (lower_char c) (lower s')
  end.

(** [s[:n]]: a negative [n] counts from the end. *)
Definition slice_to (s : string) (n : Z) : string :=
  let len := Z.of_nat (String.length s) in
  let stop := if (n <? 0)%Z then Z.max 0 (len + n) else n in
  string_of_list_ascii (take (Z.to_nat stop) (list_ascii_of_string s)).

(** [', '.join(l)]. *)
Fixpoint join (sep : string) (l : list string) : string :=
  match l with
  | [] => ""
  | [s] => s
  | s :: l' => s +:+ sep +:+ join sep l'
  end.

Section Validation.

(** [int(s)] on a string: the integer it denotes, or [None] when
    Python raises [ValueError]. *)
Variable int_of_str : string -> option Z.

(** [int(value) if value else default], inside the [try]. *)
Definition int_or_default (value : option string) (default : Z) : result Z :=
  match value with
  | None => ret default
  | Some s =>
      if String.eqb s "" then ret default
      else match int_of_str s with
           | Some num => ret num
           | None => raise ValueError
           end
  end.

(** [validate_positive_int] of [app.py]. *)
Definition validate_positive_int (value : option string) (default max_value : Z)
    : Z :=
  match int_or_default value default with
  | inr num => Z.max 1 (Z.min num max_value)
  | inl _ => default
  end.

(** [validate_time_range] of [app.py]. *)
Definition validate_time_range (value : option string) (default : Z) : Z :=
  match int_or_default value default with
  | inr minutes => Z.max 1 (Z.min minutes MAX_TIME_RANGE_MINUTES)
  | inl _ => default
  end.

End Validation.

Module Validators.

Section Validation.

Variable int_of_str : string -> option Z.

(** [validate_positive_int] of [utils/validators.py]: the value and the
    error message, [None] when there is none. *)
Definition validate_positive_int (value : option string) (default max_value : Z)
    (field_name : string) : Z * option string :=
  match value with
  | None => (default, None)
  | Some s =>
      if String.eqb s "" then (default, None)
      else
        match int_of_str s with
        | None => (default, Some ("Invalid " +:+ field_name +:+ ": must be an integer"))
        | Some num =>
            if (num <? 1)%Z then (default, Some (field_name +:+ " must be positive"))
            else if (max_value <? num)%Z
                 then (max_value,
                       Some (field_name +:+ " capped at maximum " +:+ pretty max_value))
                 else (num, None)
        end
  end.

(** [validate_time_range] of [utils/validators.py]. *)
Definition validate_time_range (value : option string) (default max_minutes : Z)
    (field_name : string) : Z * option string :=
  match value with
  | None => (default, None)
  | Some s =>
      if String.eqb s "" then (default, None)
      else
        match int_of_str s with
        | None => (default, Some ("Invalid " +:+ field_name +:+ ": must be an integer"))
        | Some minutes =>
            if (minutes <? 1)%Z
            then (default, Some (field_name +:+ " must be at least 1 minute"))
            else if (max_minutes <? minutes)%Z
                 then (max_minutes,
                       Some (field_name +:+ " capped at " +:+ pretty max_minutes
                             +:+ " minutes (24 hours)"))
                 else (minutes, None)
        end
  end.

End Validation.

(** [validate_string_field]. *)
Definition validate_string_field (value : option string) (field_name : string)
    (max_length : Z) (allow_empty : bool) : option string * option string :=
  match value with
  | None =>
      if allow_empty then (None, None)
      else (None, Some (field_name +:+ " is required"))
  | Some v =>
      let value := strip v in
      if String.eqb value "" && negb allow_empty
      then (None, Some (field_name +:+ " cannot be empty"))
      else if (max_length <? Z.of_nat (String.length value))%Z
           then (Some (slice_to value max_length),
                 Some (field_name +:+ " truncated to " +:+ pretty max_length
                       +:+ " characters"))
           else (Some value, None)
  end.

(** The loop of the case-insensitive branch: the first allowed value
    that equals the input when both are lowered. *)
Fixpoint first_match (value_lower : string) (allowed_values : list string)
    : option string :=
  match allowed_values with
  | [] => None
  | allowed :: rest =>
      if String.eqb value_lower (lower allowed) then Some allowed
      else first_match value_lower rest
  end.

(** [validate_enum_field]. *)
Definition validate_enum_field (value : option string) (field_name : string)
    (allowed_values : list string) (case_sensitive : bool)
    : option string * option string :=
  match value with
  | None => (None, None)
  | Some v =>
      let value := strip v in
      let invalid :=
        (None, Some ("Invalid " +:+ field_name +:+ ": must be one of "
                     +:+ join ", " allowed_values)) in
      if case_sensitive then
        if existsb (String.eqb value) allowed_values then (Some value, None)
        else invalid
      else
        match first_match (lower value) allowed_values with
        | Some allowed => (Some allowed, None)
        | None => invalid
        end
  end.

End Validators.

(** A parser of decimal numerals, for examples: an optional [-] and
    digits only. *)
Fixpoint digits_value (acc : Z) (s : string) : option Z :=
  match s with
  | EmptyString => Some acc
  | String c s' =>
      let n := nat_of_ascii c in
      if ((48 <=? n) && (n <=? 57))%nat
      then digits_value (10 * acc + Z.of_nat (n - 48)) s'
      else None
  end.

Definition sample_int_of_str (s : string) : option Z :=
  match s with
  | EmptyString => None
  | String "-" s' =>
      if String.eqb s' "" then None else option_map Z.opp (digits_value 0 s')
  | _ => digits_value 0 s
  end.

Definition attack_severities : list string :=
  ["Low"; "Medium"; "High"; "Critical"].
(* ===================================================================== *)
(** * Properties *)
(* ===================================================================== *)

(** ** The buffer of recent attacks *)

Section DequeFacts.

Context {A : Type}.
Implicit Types (d : deque A) (x : A) (xs : list A).

Lemma maxlen_append d x : maxlen (deque_append d x) = maxlen d.
Proof. reflexivity. Qed.

Lemma maxlen_appends xs d : maxlen (fold_left deque_append xs d) = maxlen d.
Proof.
  revert d. induction xs as [|x xs IH]; intros d; simpl; [done|].
  by rewrite IH.
Qed.

(** One append to a bounded deque that holds the last [n] of [xs]. *)
Lemma append_last_n (n : nat) xs x :
  items (deque_append (Deque (Some n) (last_n n xs)) x) = last_n n (xs ++ [x]).
Proof.
  unfold deque_append, last_n. simpl.
  rewrite !length_app, length_drop. simpl.
  destruct (Nat.ltb_spec n (length xs - (length xs - n) + 1)) as [Hlt|Hge].
  - rewrite <- drop_app_le by lia.
    rewrite drop_drop. f_equal. lia.
  - rewrite <- drop_app_le by lia.
    f_equal. lia.
Qed.

(** Appending [xs] to an empty bounded deque leaves its last [n] items. *)
Lemma appends_last_n (n : nat) xs :
  fold_left deque_append xs (deque_new (Some n)) = Deque (Some n) (last_n n xs).
Proof.
  induction xs as [|x xs IH] using rev_ind.
  - reflexivity.
  - rewrite fold_left_app. simpl. rewrite IH.
    unfold deque_append at 1. f_equal.
    apply (append_last_n n xs x).
Qed.

Lemma length_last_n (n : nat) xs : length (last_n n xs) <= n.
Proof. unfold last_n. rewrite length_drop. lia. Qed.

End DequeFacts.

(** Every event appends at most one record, and does nothing else to
    the buffer. *)
Lemma step_recent_attacks st ev :
  recent_attacks (step st ev) =
  match appended_by st ev with
  | Some a => deque_append (recent_attacks st) a
  | None => recent_attacks st
  end.
Proof.
  destruct ev as [a db ws|d db ws|ips d db ws|ips d db]; simpl; try reflexivity.
  - destruct (create_real_attack _ _ _); reflexivity.
  - unfold generate_new_attack.
    destruct (create_real_attack _ _ _) as [a|]; [|reflexivity].
    destruct db; [|reflexivity]. simpl.
    destruct (overflow_test _); reflexivity.
Qed.

Lemma run_from_recent_attacks evs st :
  recent_attacks (fold_left step evs st) =
  fold_left deque_append (appended_from st evs) (recent_attacks st).
Proof.
  revert st. induction evs as [|ev evs IH]; intros st; simpl; [done|].
  rewrite IH, step_recent_attacks.
  destruct (appended_by st ev); reflexivity.
Qed.

Lemma run_recent_attacks evs :
  recent_attacks (run evs) =
  Deque (Some MAX_ATTACKS) (last_n MAX_ATTACKS (appended evs)).
Proof.
  unfold run, appended. rewrite run_from_recent_attacks.
  apply appends_last_n.
Qed.

(** C1. A deque of capacity [N] that has received any sequence of
    records holds at most [N] of them, and reading it back gives the
    last [N] records appended, oldest first. This holds in particular
    for [recent_attacks] (capacity [MAX_ATTACKS] = 100) after any
    sequence of broadcasts, scheduler steps and generate requests. *)
Theorem ring_buffer_bounded_and_recent (N : nat) (records : list value)
    (evs : list event) :
  let d := fold_left deque_append records (deque_new (Some N)) in
  let buf := recent_attacks (run evs) in
  (deque_len d <= N /\ deque_list d = last_n N records) /\
  MAX_ATTACKS = 100%nat /\
  (deque_len buf <= MAX_ATTACKS /\
   deque_list buf = last_n MAX_ATTACKS (appended evs)).
Proof.
  intros d buf. subst d buf.
  rewrite appends_last_n, run_recent_attacks.
  unfold deque_len, deque_list. simpl items.
  repeat split; auto using length_last_n.
Qed.

(** The buffer once it has received 102 records. *)
Example ring_buffer_102 :
  let records := map VInt (map Z.of_nat (seq 1 102)) in
  deque_list (fold_left deque_append records (deque_new (Some 100%nat))) =
  map VInt (map Z.of_nat (seq 3 100)).
Proof. vm_compute. reflexivity. Qed.

(** ** The overflow branch of [generate_new_attack] *)

(** C10. Whatever has happened before, the overflow test that
    [generate_new_attack] evaluates after its append is false: the
    branch that calls [recent_attacks.pop(0)] is never taken, and the
    handler never ends in the [TypeError] the call would raise. *)
Theorem generate_new_attack_overflow_unreachable (evs : list event)
    (threat_ips : list string) (d : real_draw) (db_ok : bool) (attack : value) :
  let st := run evs in
  deque_len (recent_attacks st) <= MAX_ATTACKS /\
  overflow_test (deque_append (recent_attacks st) attack) = false /\
  snd (generate_new_attack threat_ips d db_ok st) <> raise TypeError.
Proof.
  intros st. subst st.
  assert (Hlen : forall a,
    deque_len (deque_append (recent_attacks (run evs)) a) <= MAX_ATTACKS).
  { intros a.
    pose proof (run_recent_attacks (evs ++ [Broadcast a true true])) as H.
    unfold run in H. rewrite fold_left_app in H. simpl in H.
    fold (run evs) in H. unfold deque_len. rewrite H. simpl.
    apply length_last_n. }
  split; [|split].
  - rewrite run_recent_attacks. unfold deque_len. simpl. apply length_last_n.
  - unfold overflow_test. apply Nat.ltb_ge, Hlen.
  - unfold generate_new_attack.
    destruct (create_real_attack _ _ _) as [a|]; [|discriminate].
    destruct db_ok; [|discriminate]. simpl.
    replace (overflow_test _) with false; [discriminate|].
    symmetry. unfold overflow_test. apply Nat.ltb_ge, Hlen.
Qed.

(** ** The identifiers of created attacks *)

(** Both constructors number a new attack by the current length of the
    buffer. *)
Lemma create_us_attack_id ra d :
  attack_id (create_us_attack ra d) = ret (VInt (Z.of_nat (deque_len ra) + 1)).
Proof.
  unfold create_us_attack.
  destruct (us_octets d) as [[[[o1 o2] o3] o4] o5].
  destruct (us_use_ipv6 d); reflexivity.
Qed.

Lemma create_real_attack_id ra ips d attack :
  create_real_attack ra ips d = Some attack ->
  attack_id attack = ret (VInt (Z.of_nat (deque_len ra) + 1)).
Proof.
  unfold create_real_attack.
  destruct (_ <? _)%nat; [discriminate|].
  destruct (real_origin d); [|discriminate].
  destruct (real_destination d); [|discriminate].
  intros [= <-]. reflexivity.
Qed.

(** C6. The identifiers of 102 attacks created and broadcast one after
    the other: they count up to 100, and then the identifier 101 is
    given again and again, because the length of the full buffer no
    longer grows. *)
Theorem attack_ids_repeat_once_buffer_is_full :
  assigned_ids (sample_us_events 102) =
  map (fun n => ret (VInt (Z.of_nat n))) (seq 1 100) ++
  [ret (VInt 101); ret (VInt 101)].
Proof. vm_compute. reflexivity. Qed.

(** Once the buffer is full, every new attack is numbered 101. *)
Lemma full_buffer_id (evs : list event) (d : us_draw) :
  MAX_ATTACKS <= length (appended evs) ->
  attack_id (create_us_attack (recent_attacks (run evs)) d) = ret (VInt 101).
Proof.
  intros Hfull. rewrite create_us_attack_id, run_recent_attacks.
  unfold deque_len, last_n. simpl. rewrite length_drop.
  unfold MAX_ATTACKS in *. do 3 f_equal. lia.
Qed.

(** ** The threat-intel pool *)

Lemma fetch_source_fails net url :
  source_fails net url = true -> fetch_source net url = [].
Proof.
  unfold source_fails, fetch_source.
  destruct (net url) as [|status text]; [done|].
  destruct (status =? 200)%Z; [discriminate|done].
Qed.

Lemma flat_map_all_nil {A B} (f : A -> list B) (p : A -> bool) (l : list A) :
  (forall a, p a = true -> f a = []) ->
  forallb p l = true -> flat_map f l = [].
Proof.
  intros Hf. induction l as [|a l IH]; simpl; [done|].
  intros [Ha Hl]%andb_true_iff. by rewrite (Hf a Ha), IH.
Qed.

(** C5. When the pool is not empty and less than [CACHE_DURATION]
    (90 seconds) have passed since the last refresh, the refresh
    returns the pool it has, requests no source, and leaves the pool
    and the time of the last refresh as they were. *)
Theorem fresh_pool_is_returned_without_fetch (net : string -> http_result)
    (current_time : float) (st : intel_state) :
  threat_ips_cache st <> [] ->
  PyFloat.int_gt_float CACHE_DURATION (current_time - last_fetch_time st)%float = true ->
  CACHE_DURATION = 90%Z /\
  fetch_real_threat_data net current_time st = (st, threat_ips_cache st, []).
Proof.
  intros Hpool Hfresh. split; [reflexivity|].
  unfold fetch_real_threat_data, cache_is_fresh.
  rewrite Hfresh, bool_decide_eq_false_2 by exact Hpool.
  reflexivity.
Qed.

(** A pool refreshed 50 seconds ago, asked again while the network is down. *)
Lemma fresh_pool_is_returned_without_fetch_witness :
  CACHE_DURATION = 90%Z /\
  fetch_real_threat_data failing_net 1000 (sample_pool 950) =
  (sample_pool 950, ["198.51.100.7"], []).
Proof.
  apply (fresh_pool_is_returned_without_fetch failing_net 1000 (sample_pool 950)).
  - discriminate.
  - vm_compute. reflexivity.
Defined.

(** C4, as stated, fails: a pool of one address, refreshed 1000
    seconds after its last refresh while every source raises, is
    replaced by the empty list. *)
Lemma failed_refresh_loses_pool :
  threat_ips_cache (sample_pool 0) <> [] /\
  cache_is_fresh 1000 (sample_pool 0) = false /\
  all_sources_fail failing_net = true /\
  threat_ips_cache (fst (fst (fetch_real_threat_data failing_net 1000 (sample_pool 0))))
    = [] /\
  threat_ips_cache (fst (fst (fetch_real_threat_data failing_net 1000 (sample_pool 0))))
    <> threat_ips_cache (sample_pool 0).
Proof.
  assert (H : threat_ips_cache
                (fst (fst (fetch_real_threat_data failing_net 1000 (sample_pool 0)))) = []).
  { vm_compute. reflexivity. }
  rewrite H. repeat split; try discriminate; vm_compute; reflexivity.
Qed.

(** C4, amended. When a refresh is attempted (the pool is empty or the
    cache duration has passed) and every source fails, all eight
    sources are requested, the pool becomes the empty list, the empty
    list is returned and the time of the last refresh becomes the
    current time. *)
Theorem failed_refresh_commits_empty_pool (net : string -> http_result)
    (current_time : float) (st : intel_state) :
  cache_is_fresh current_time st = false ->
  all_sources_fail net = true ->
  fetch_real_threat_data net current_time st =
  ({| threat_ips_cache := []; last_fetch_time := current_time |},
   [], map fst sources).
Proof.
  intros Hstale Hfail. unfold fetch_real_threat_data. rewrite Hstale.
  rewrite (flat_map_all_nil _ (fun src => source_fails net (fst src))).
  - simpl list_to_set. rewrite elements_empty. reflexivity.
  - intros src. apply fetch_source_fails.
  - exact Hfail.
Qed.

(** A pool refreshed 1000 seconds ago, refreshed while the network is down. *)
Lemma failed_refresh_commits_empty_pool_witness :
  fetch_real_threat_data failing_net 1000 (sample_pool 0) =
  ({| threat_ips_cache := []; last_fetch_time := 1000 |}, [], map fst sources).
Proof.
  apply (failed_refresh_commits_empty_pool failing_net 1000 (sample_pool 0)).
  - vm_compute. reflexivity.
  - vm_compute. reflexivity.
Defined.

(** ** The trend *)

Lemma sum_from (l : list Z) (acc : Z) : fold_left Z.add l acc = (acc + sum l)%Z.
Proof.
  unfold sum. revert acc. induction l as [|x l IH]; intros acc; [simpl; lia|].
  change (fold_left Z.add l (acc + x)%Z = (acc + fold_left Z.add l (0 + x))%Z).
  rewrite (IH (acc + x)%Z), (IH (0 + x)%Z). lia.
Qed.

Lemma sum_cons (x : Z) (l : list Z) : sum (x :: l) = (x + sum l)%Z.
Proof. unfold sum at 1. simpl. apply sum_from. Qed.

Lemma sum_bounds (l : list Z) :
  Forall (fun x => (0 <= x <= 100)%Z) l ->
  (0 <= sum l <= 100 * Z.of_nat (length l))%Z.
Proof.
  induction 1 as [|x l Hx Hl IH]; [done|].
  rewrite sum_cons. simpl length. lia.
Qed.

Lemma length_last_n_ge {A} (n : nat) (l : list A) :
  n <= length l -> length (last_n n l) = n.
Proof. intros H. unfold last_n. rewrite length_drop. lia. Qed.

(** The binary64 computation of the trend, checked on every sum of
    five scores and every current score between 0 and 100. *)
Lemma trend_rows_agree : forallb trend_row_agrees (seq 0 501) = true.
Proof. vm_compute. reflexivity. Qed.

Lemma trend_of_average_in_range (total current_score : Z) :
  (0 <= total <= 500)%Z -> (0 <= current_score <= 100)%Z ->
  trend_of_average 10 10 total 5 current_score =
  ret (trend_by_sum total current_score).
Proof.
  intros Ht Hc.
  pose proof trend_rows_agree as Hall.
  rewrite forallb_forall in Hall.
  specialize (Hall (Z.to_nat total)).
  unfold trend_row_agrees in Hall. rewrite forallb_forall in Hall.
  specialize (Hall ltac:(apply in_seq; lia) (Z.to_nat current_score)
                   ltac:(apply in_seq; lia)).
  rewrite !Z2Nat.id in Hall by lia.
  destruct (trend_of_average 10 10 total 5 current_score) as [e|r]; [done|].
  apply String.eqb_eq in Hall. by subst.
Qed.

Lemma last_5_scores_in_range (history : deque ThreatScoreResult) :
  scores_in_range history -> 5 <= deque_len history ->
  (0 <= sum (map score (last_n 5 (deque_list history))) <= 500)%Z /\
  length (map score (last_n 5 (deque_list history))) = 5.
Proof.
  intros Hr Hlen.
  assert (Hl : length (map score (last_n 5 (deque_list history))) = 5).
  { rewrite length_map. by apply length_last_n_ge. }
  split; [|exact Hl].
  pose proof (sum_bounds (map score (last_n 5 (deque_list history)))) as Hb.
  rewrite Hl in Hb. apply Hb.
  apply Forall_map. unfold last_n. apply Forall_drop. exact Hr.
Qed.

(** In the ranges of a score, both trend functions decide on
    [5 * current_score] against the sum of the last five scores. *)
Lemma trend_by_sum_correct (history : deque ThreatScoreResult) (current_score : Z) :
  scores_in_range history -> (0 <= current_score <= 100)%Z ->
  5 <= deque_len history ->
  let total := sum (map score (last_n 5 (deque_list history))) in
  _calculate_trend history current_score = ret (trend_by_sum total current_score) /\
  ThreatScoringService._calculate_trend ThreatScoringService.default
    history current_score = ret (trend_by_sum total current_score).
Proof.
  intros Hr Hc Hlen total.
  destruct (last_5_scores_in_range history Hr Hlen) as [Hsum Hl].
  unfold _calculate_trend, ThreatScoringService._calculate_trend.
  replace (deque_len history <? 5)%nat with false
    by (symmetry; apply Nat.ltb_ge; exact Hlen).
  rewrite Hl. simpl ThreatScoringService.escalation_threshold.
  simpl ThreatScoringService.de_escalation_threshold.
  unfold ESCALATION_THRESHOLD, DE_ESCALATION_THRESHOLD.
  split; apply trend_of_average_in_range; assumption.
Qed.

Lemma mean_plus_10_lt (total current_score : Z) :
  ((total # 5) + 10 < inject_Z current_score)%Q <->
  (total + 50 < 5 * current_score)%Z.
Proof. unfold Qlt, Qplus, inject_Z. simpl. lia. Qed.

Lemma lt_mean_minus_10 (total current_score : Z) :
  (inject_Z current_score < (total # 5) - 10)%Q <->
  (5 * current_score < total - 50)%Z.
Proof. unfold Qlt, Qminus, Qplus, Qopp, inject_Z. simpl. lia. Qed.

(** C7. A history with fewer than 5 entries gives the trend 'stable'.
    Otherwise, with [mean] the arithmetic mean of the last 5 scores,
    the trend is 'escalating' when [total > mean + 10],
    'de-escalating' when [total < mean - 10] and 'stable' otherwise.
    Scores are integers from 0 to 100, as [calculate_threat_score]
    produces and records them; the same holds for the service with its
    default thresholds. *)
Theorem trend_follows_mean_of_last_5 (history : deque ThreatScoreResult)
    (total : Z) :
  scores_in_range history -> (0 <= total <= 100)%Z ->
  let trend := _calculate_trend history total in
  let mean := mean_of_last_5 history in
  ThreatScoringService._calculate_trend ThreatScoringService.default history total
    = trend /\
  (deque_len history < 5 -> trend = ret "stable") /\
  (5 <= deque_len history ->
   ((mean + 10 < inject_Z total)%Q -> trend = ret "escalating") /\
   ((inject_Z total < mean - 10)%Q -> trend = ret "de-escalating") /\
   ((inject_Z total <= mean + 10)%Q -> (mean - 10 <= inject_Z total)%Q ->
    trend = ret "stable")).
Proof.
  intros Hr Ht trend mean. subst trend mean.
  split; [|split].
  - destruct (Nat.lt_ge_cases (deque_len history) 5) as [Hlt|Hge].
    + unfold _calculate_trend, ThreatScoringService._calculate_trend.
      apply Nat.ltb_lt in Hlt. by rewrite Hlt.
    + destruct (trend_by_sum_correct history total Hr Ht Hge) as [-> ->].
      reflexivity.
  - intros Hlt. unfold _calculate_trend.
    apply Nat.ltb_lt in Hlt. by rewrite Hlt.
  - intros Hge.
    destruct (trend_by_sum_correct history total Hr Ht Hge) as [-> _].
    unfold mean_of_last_5, trend_by_sum.
    set (s := sum (map score (last_n 5 (deque_list history)))).
    repeat split.
    + intros H%mean_plus_10_lt.
      apply Z.ltb_lt in H. by rewrite H.
    + intros H%lt_mean_minus_10.
      destruct (Z.ltb_spec (s + 50) (5 * total)); [lia|].
      apply Z.ltb_lt in H. by rewrite H.
    + intros H1 H2.
      apply Qle_not_lt in H1, H2.
      rewrite mean_plus_10_lt in H1. rewrite lt_mean_minus_10 in H2.
      destruct (Z.ltb_spec (s + 50) (5 * total)); [lia|].
      destruct (Z.ltb_spec (5 * total) (s - 50)); [lia|done].
Qed.

(** Five scores of 50 and a new score of 65. *)
Lemma trend_follows_mean_of_last_5_witness :
  scores_in_range history_of_fifties /\
  (mean_of_last_5 history_of_fifties + 10 < inject_Z 65)%Q /\
  _calculate_trend history_of_fifties 65 = ret "escalating".
Proof.
  assert (Hr : scores_in_range history_of_fifties).
  { unfold scores_in_range. simpl. repeat constructor; simpl; lia. }
  assert (Hm : (mean_of_last_5 history_of_fifties + 10 < inject_Z 65)%Q).
  { vm_compute. reflexivity. }
  split; [exact Hr|]. split; [exact Hm|].
  destruct (trend_follows_mean_of_last_5 history_of_fifties 65 Hr
              ltac:(lia)) as (_ & _ & H).
  destruct (H ltac:(vm_compute; lia)) as (Hesc & _ & _).
  exact (Hesc Hm).
Defined.

(** C8, as stated, fails in its second half: against five scores of
    50, whose mean is 50, a new score of 70 is above 60 and the trend
    is 'escalating', not 'stable'. *)
Lemma trend_of_70_against_mean_50 :
  (mean_of_last_5 history_of_fifties == 50)%Q /\
  _calculate_trend history_of_fifties 65 = ret "escalating" /\
  _calculate_trend history_of_fifties 70 = ret "escalating" /\
  _calculate_trend history_of_fifties 70 <> ret "stable".
Proof.
  assert (H : _calculate_trend history_of_fifties 70 = ret "escalating").
  { vm_compute. reflexivity. }
  rewrite H. repeat split; try discriminate; vm_compute; reflexivity.
Qed.

Lemma mean_50_sum (history : deque ThreatScoreResult) :
  (mean_of_last_5 history == 50)%Q ->
  sum (map score (last_n 5 (deque_list history))) = 250%Z.
Proof. unfold mean_of_last_5, Qeq. cbn [Qnum Qden]. lia. Qed.

(** C8, amended. When the last 5 scores of the history average 50, a
    new total of 65 gives the trend 'escalating', and so does a new
    total of 70. The same holds for the service with its default
    thresholds. *)
Theorem trend_against_mean_50 (history : deque ThreatScoreResult) :
  5 <= deque_len history ->
  (mean_of_last_5 history == 50)%Q ->
  _calculate_trend history 65 = ret "escalating" /\
  _calculate_trend history 70 = ret "escalating" /\
  ThreatScoringService._calculate_trend ThreatScoringService.default history 65
    = ret "escalating" /\
  ThreatScoringService._calculate_trend ThreatScoringService.default history 70
    = ret "escalating".
Proof.
  intros Hlen Hmean%mean_50_sum.
  unfold _calculate_trend, ThreatScoringService._calculate_trend.
  replace (deque_len history <? 5)%nat with false
    by (symmetry; apply Nat.ltb_ge; exact Hlen).
  rewrite length_map, (length_last_n_ge 5) by exact Hlen.
  rewrite Hmean.
  repeat split; vm_compute; reflexivity.
Qed.

(** Five scores of 50. *)
Lemma trend_against_mean_50_witness :
  _calculate_trend history_of_fifties 65 = ret "escalating" /\
  _calculate_trend history_of_fifties 70 = ret "escalating" /\
  ThreatScoringService._calculate_trend ThreatScoringService.default
    history_of_fifties 65 = ret "escalating" /\
  ThreatScoringService._calculate_trend ThreatScoringService.default
    history_of_fifties 70 = ret "escalating".
Proof.
  apply (trend_against_mean_50 history_of_fifties).
  - vm_compute. lia.
  - vm_compute. reflexivity.
Defined.

(** ** The threat score *)

(** C2. On an empty buffer the score is the zero record: score 0, level
    'Low', trend 'stable' and the four factors 0. The history is left
    as it is. The same holds for the service, however configured. *)
Theorem empty_buffer_gives_zero_score (iso_timestamp : string -> result float)
    (buffer_maxlen : option nat) (history : deque ThreatScoreResult)
    (now : float) (now_iso : string) (self : ThreatScoringService.t) :
  let zero := {| score := 0;
                 level := "Low";
                 trend := "stable";
                 factors := {| frequency := 0; severity := 0;
                               diversity := 0; concentration := 0 |};
                 timestamp := now_iso |} in
  calculate_threat_score iso_timestamp (Deque buffer_maxlen []) history now now_iso
    = ret (zero, history) /\
  ThreatScoringService.calculate_score iso_timestamp self [] history now now_iso
    = ret zero.
Proof. intros zero. split; reflexivity. Qed.

(** C3. [calculate_threat_score] always returns: when its body raises,
    whatever the exception, the result is the zero record and the
    history is untouched; otherwise it is what the body returned. The
    same holds for the service. *)
Theorem score_never_raises (iso_timestamp : string -> result float)
    (recent_attacks : deque value) (history : deque ThreatScoreResult)
    (now : float) (now_iso : string) (self : ThreatScoringService.t) :
  let zero := {| score := 0;
                 level := "Low";
                 trend := "stable";
                 factors := {| frequency := 0; severity := 0;
                               diversity := 0; concentration := 0 |};
                 timestamp := now_iso |} in
  (exists r h,
     calculate_threat_score iso_timestamp recent_attacks history now now_iso
       = ret (r, h) /\
     forall e,
       calculate_threat_score_body iso_timestamp recent_attacks history now now_iso
         = raise e ->
       r = zero /\ h = history) /\
  (exists r,
     ThreatScoringService.calculate_score iso_timestamp self
       (deque_list recent_attacks) history now now_iso = ret r /\
     forall e,
       ThreatScoringService.calculate_score_body iso_timestamp self
         (deque_list recent_attacks) history now now_iso = raise e ->
       r = zero).
Proof.
  intros zero. split.
  - unfold calculate_threat_score, try_except.
    destruct (calculate_threat_score_body _ _ _ _ _) as [e|[r h]].
    + exists zero, history. split; [reflexivity|]. intros _ _. split; reflexivity.
    + exists r, h. split; [reflexivity|]. intros e He. discriminate He.
  - unfold ThreatScoringService.calculate_score, try_except.
    destruct (ThreatScoringService.calculate_score_body _ _ _ _ _ _) as [e|r].
    + exists zero. split; [reflexivity|]. intros _ _. reflexivity.
    + exists r. split; [reflexivity|]. intros e He. discriminate He.
Qed.

(** Records that make the body raise: no timestamp, a timestamp that
    is not a string, a timestamp that is not a date, a record that is
    not a dictionary, a severity that cannot be hashed, a destination
    without a country. Each time the function returns the zero record. *)
Example malformed_records_give_zero_score :
  let body a := calculate_threat_score_body sample_iso_timestamp
                  (sample_buffer [a]) empty_history 1735689900 "now" in
  let call a := calculate_threat_score sample_iso_timestamp
                  (sample_buffer [a]) empty_history 1735689900 "now" in
  let ts := VStr "2025-01-01T00:04:00Z" in
  forall a e,
    In (a, e)
       [(VDict [], KeyError);
        (VDict [("timestamp", VInt 7)], AttributeError);
        (VDict [("timestamp", VStr "yesterday")], ValueError);
        (VStr "attack", TypeError);
        (VDict [("timestamp", ts); ("severity", VList [])], TypeError);
        (VDict [("timestamp", ts); ("destination", VDict [])], KeyError)] ->
    body a = raise e /\ call a = ret (zero_score "now", empty_history).
Proof.
  intros body call ts a e Hin. simpl in Hin.
  repeat (destruct Hin as [[= <- <-]|Hin]; [split; vm_compute; reflexivity|]).
  destruct Hin.
Qed.

(** ** The per-country scores *)

Section Comprehensions.

Context {A B : Type}.

Lemma mapM_inr_In (f : A -> result B) (l : list A) (bs : list B) :
  mapM f l = inr bs ->
  forall b, In b bs -> exists a, In a l /\ f a = inr b.
Proof.
  revert bs. induction l as [|a l IH]; simpl; intros bs H b Hb.
  - injection H as <-. destruct Hb.
  - destruct (f a) as [e|b0] eqn:Hfa; [discriminate|]. simpl in H.
    destruct (mapM f l) as [e|bs0]; [discriminate|]. simpl in H.
    injection H as <-. destruct Hb as [<-|Hb].
    + exists a. auto.
    + destruct (IH bs0 eq_refl b Hb) as (a' & Ha' & Hfa').
      exists a'. auto.
Qed.

Lemma mapM_inr_map (f : A -> result B) (g : A -> B) (l : list A) (bs : list B) :
  (forall a b, f a = inr b -> b = g a) ->
  mapM f l = inr bs -> bs = map g l.
Proof.
  intros Hfg. revert bs. induction l as [|a l IH]; simpl; intros bs H.
  - by injection H as <-.
  - destruct (f a) as [e|b0] eqn:Hfa; [discriminate|]. simpl in H.
    destruct (mapM f l) as [e|bs0]; [discriminate|]. simpl in H.
    injection H as <-. by rewrite (Hfg a b0 Hfa), (IH bs0 eq_refl).
Qed.

End Comprehensions.

(** A float is never compared as a string. *)
Lemma hkey_of_float_not_str (f : float) (s : string) : hkey_of_float f <> HStr s.
Proof.
  unfold hkey_of_float.
  destruct (Prim2SF f) as [sg|sg| |sg m e]; try discriminate.
  destruct (0 <=? e)%Z; [discriminate|].
  destruct (_ =? 0)%Z; discriminate.
Qed.

(** The weight the code reads is the weight of the specification. *)
Lemma country_severity_weight_stated (a : value) (w : Z) :
  country_severity_weight a = inr w -> w = stated_severity_weight a.
Proof.
  unfold country_severity_weight, stated_severity_weight.
  destruct (get a "severity" (VStr "Low")) as [e|sev]; [discriminate|]. simpl.
  unfold weight_get, bind, ret, raise.
  destruct sev as [|b|z|f|s|l|kvs]; simpl;
    try (intros [= <-]; reflexivity); try discriminate.
  - pose proof (hkey_of_float_not_str f) as Hf.
    destruct (hkey_of_float f); try (intros [= <-]; reflexivity).
    by destruct (Hf s).
  - intros [= <-].
    destruct (String.eqb s "Critical"); [reflexivity|].
    destruct (String.eqb s "High"); [reflexivity|].
    destruct (String.eqb s "Medium"); [reflexivity|].
    destruct (String.eqb s "Low"); reflexivity.
Qed.

(** The four weights of the specification. *)
Lemma stated_severity_weights (ts ty c : string) :
  stated_severity_weight (sample_attack ts "Critical" ty c) = 4%Z /\
  stated_severity_weight (sample_attack ts "High" ty c) = 3%Z /\
  stated_severity_weight (sample_attack ts "Medium" ty c) = 2%Z /\
  stated_severity_weight (sample_attack ts "Low" ty c) = 1%Z.
Proof. repeat split. Qed.

(** An entry carries the score of its group. *)
Lemma country_entry_score (c : value) (attacks : list value)
    (e : CountryThreatScore.t) :
  country_entry c attacks = inr e ->
  CountryThreatScore.country e = c /\
  CountryThreatScore.attack_count e = Z.of_nat (length attacks) /\
  CountryThreatScore.score e =
    Z.min 100 (Z.of_nat (length attacks) * 5
               + sum (map stated_severity_weight attacks) * 3).
Proof.
  unfold country_entry.
  destruct (mapM country_severity_weight attacks) as [x|ws] eqn:Hws;
    [discriminate|]. simpl.
  destruct (mapM is_critical attacks) as [x|crit]; [discriminate|]. simpl.
  intros [= <-]. simpl.
  apply (mapM_inr_map _ stated_severity_weight) in Hws;
    [|apply country_severity_weight_stated].
  subst ws. auto.
Qed.

(** *** Grouping *)

Lemma filter_none {A} (p : A -> bool) (l : list A) :
  (forall a, In a l -> p a = false) -> List.filter p l = [].
Proof.
  induction l as [|a l IH]; simpl; intros H; [done|].
  rewrite (H a) by auto. apply IH. auto.
Qed.

Lemma group_add_keys (c : value) (k : hkey) (a : value)
    (groups : list (value * hkey * list value)) :
  map (fun g => snd (fst g)) (group_add c k a groups) =
  if bool_decide (k ∈ map (fun g => snd (fst g)) groups)
  then map (fun g => snd (fst g)) groups
  else map (fun g => snd (fst g)) groups ++ [k].
Proof.
  induction groups as [|[[c' k'] attacks] groups IH]; cbn [group_add map fst snd].
  - rewrite bool_decide_eq_false_2; [reflexivity|]. apply not_elem_of_nil.
  - unfold hkey_eqb. destruct (bool_decide_reflect (k = k')) as [->|Hne];
      cbn [map fst snd].
    + rewrite bool_decide_eq_true_2; [reflexivity|]. apply elem_of_cons. auto.
    + rewrite IH.
      destruct (bool_decide_reflect (k ∈ map (fun g => snd (fst g)) groups)).
      * rewrite bool_decide_eq_true_2; [reflexivity|]. apply elem_of_cons. auto.
      * rewrite bool_decide_eq_false_2; [reflexivity|].
        intros [?|?]%elem_of_cons; congruence.
Qed.

(** Where the groups of [group_add] come from. *)
Lemma group_add_In (c : value) (k : hkey) (a : value)
    (groups : list (value * hkey * list value)) c' k' attacks' :
  NoDup (map (fun g => snd (fst g)) groups) ->
  In (c', k', attacks') (group_add c k a groups) ->
  (k' <> k /\ In (c', k', attacks') groups) \/
  (k' = k /\ exists attacks0, In (c', k, attacks0) groups /\
                              attacks' = attacks0 ++ [a]) \/
  (k' = k /\ ~ In k (map (fun g => snd (fst g)) groups) /\
   c' = c /\ attacks' = [a]).
Proof.
  induction groups as [|[[c0 k0] attacks0] groups IH]; simpl; intros Hnd Hin.
  - destruct Hin as [[= <- <- <-]|[]]. right. right. tauto.
  - apply NoDup_cons in Hnd as [Hk0 Hnd].
    unfold hkey_eqb in Hin.
    destruct (bool_decide_reflect (k = k0)) as [<-|Hne]; simpl in Hin.
    + destruct Hin as [[= <- <- <-]|Hin].
      * right. left. split; [reflexivity|]. exists attacks0. auto.
      * left. split; [|auto]. intros ->. apply Hk0.
        apply list_elem_of_In, in_map_iff. exists (c', k, attacks'). auto.
    + destruct Hin as [[= <- <- <-]|Hin].
      * left. split; [congruence|auto].
      * destruct (IH Hnd Hin) as [[H1 H2]|[[H1 (x & H2 & H3)]|(H1 & H2 & H3 & H4)]].
        -- left. auto.
        -- right. left. split; [exact H1|]. exists x. auto.
        -- right. right. repeat split; auto. intros [?|?]; congruence.
Qed.

Lemma groups_of_add (c : value) (k : hkey) (a : value)
    (groups : list (value * hkey * list value)) (seen : list value) :
  groups_of groups seen ->
  hash_key c = inr k -> country_key a = Some k ->
  groups_of (group_add c k a groups) (seen ++ [a]).
Proof.
  intros (Hnd & Hgroups & Hkeys) Hc Ha.
  split; [|split].
  - rewrite group_add_keys.
    destruct (bool_decide_reflect (k ∈ map (fun g => snd (fst g)) groups))
      as [|Hnew]; [exact Hnd|].
    apply NoDup_app. split; [exact Hnd|]. split.
    + intros x Hx ->%list_elem_of_singleton. tauto.
    + apply NoDup_singleton.
  - intros c' k' attacks' Hin. rewrite List.filter_app. cbn [List.filter].
    destruct (group_add_In _ _ _ _ _ _ _ Hnd Hin)
      as [[Hne Hg]|[[-> (x & Hg & ->)]|(-> & Hnew & -> & ->)]].
    + destruct (Hgroups _ _ _ Hg) as [Hc' ->]. split; [exact Hc'|].
      assert (targets k' a = false) as ->
        by (apply bool_decide_eq_false_2; congruence).
      by rewrite app_nil_r.
    + destruct (Hgroups _ _ _ Hg) as [Hc' ->]. split; [exact Hc'|].
      assert (targets k a = true) as -> by (by apply bool_decide_eq_true_2).
      reflexivity.
    + split; [exact Hc|].
      assert (targets k a = true) as -> by (by apply bool_decide_eq_true_2).
      rewrite filter_none; [reflexivity|].
      intros a0 Ha0. apply bool_decide_eq_false_2.
      intros Hk. apply Hnew. eapply Hkeys; eauto.
  - intros a0 k0 [Ha0|[<-|[]]]%in_app_iff Hk0; rewrite group_add_keys.
    + specialize (Hkeys a0 k0 Ha0 Hk0).
      destruct (bool_decide _); [exact Hkeys|]. apply in_app_iff. auto.
    + assert (k0 = k) as -> by congruence.
      destruct (bool_decide_reflect (k ∈ map (fun g => snd (fst g)) groups))
        as [Hin|_]; [by apply list_elem_of_In|].
      apply in_app_iff. right. simpl. auto.
Qed.

Lemma groups_of_skip (a : value)
    (groups : list (value * hkey * list value)) (seen : list value) :
  groups_of groups seen -> country_key a = None ->
  groups_of groups (seen ++ [a]).
Proof.
  intros (Hnd & Hgroups & Hkeys) Ha.
  split; [exact Hnd|split].
  - intros c k attacks Hin. destruct (Hgroups _ _ _ Hin) as [Hc ->].
    split; [exact Hc|]. rewrite List.filter_app. cbn [List.filter].
    assert (targets k a = false) as ->
      by (apply bool_decide_eq_false_2; congruence).
    by rewrite app_nil_r.
  - intros a0 k0 [Ha0|[<-|[]]]%in_app_iff Hk0; [eauto|congruence].
Qed.

Lemma group_by_country_groups (attacks : list value)
    (groups groups' : list (value * hkey * list value)) (seen : list value) :
  groups_of groups seen ->
  group_by_country attacks groups = inr groups' ->
  groups_of groups' (seen ++ attacks).
Proof.
  revert groups seen. induction attacks as [|a attacks IH]; simpl;
    intros groups seen Hinv H.
  - injection H as <-. by rewrite app_nil_r.
  - destruct (destination_country a) as [e|[c|]] eqn:Hdc; [discriminate| |];
      simpl in H.
    + destruct (hash_key c) as [e|k] eqn:Hc; [discriminate|]. simpl in H.
      replace (seen ++ a :: attacks) with ((seen ++ [a]) ++ attacks)
        by (by rewrite <- app_assoc).
      apply (IH _ _ (groups_of_add c k a groups seen Hinv Hc
                       ltac:(unfold country_key; by rewrite Hdc, Hc)) H).
    + replace (seen ++ a :: attacks) with ((seen ++ [a]) ++ attacks)
        by (by rewrite <- app_assoc).
      apply (IH _ _ (groups_of_skip a groups seen Hinv
                       ltac:(unfold country_key; by rewrite Hdc)) H).
Qed.

Lemma groups_of_nil : groups_of [] [].
Proof.
  split; [apply NoDup_nil_2|]. split; [intros ? ? ? []|intros ? ? []].
Qed.

(** *** Sorting *)

Lemma insert_desc_In (x y : CountryThreatScore.t) (l : list CountryThreatScore.t) :
  In y (insert_desc x l) <-> y = x \/ In y l.
Proof.
  induction l as [|z l IH]; simpl; [intuition congruence|].
  destruct (_ <? _)%Z; simpl; [rewrite IH|]; intuition congruence.
Qed.

Lemma sort_desc_In (y : CountryThreatScore.t) (l : list CountryThreatScore.t) :
  In y (sort_desc l) <-> In y l.
Proof.
  induction l as [|x l IH]; simpl; [tauto|].
  rewrite insert_desc_In, IH. intuition congruence.
Qed.

Lemma insert_desc_sorted (x : CountryThreatScore.t) (l : list CountryThreatScore.t) :
  StronglySorted score_ge l -> StronglySorted score_ge (insert_desc x l).
Proof.
  induction 1 as [|z l Hl IH Hz]; simpl.
  - repeat constructor.
  - destruct (Z.ltb_spec (CountryThreatScore.score x) (CountryThreatScore.score z)).
    + constructor; [exact IH|].
      apply Forall_forall. intros y [->|Hy]%list_elem_of_In%insert_desc_In.
      * unfold score_ge. lia.
      * rewrite Forall_forall in Hz. apply Hz. by apply list_elem_of_In.
    + constructor; [by constructor|].
      constructor; [unfold score_ge; lia|].
      eapply Forall_impl; [exact Hz|]. unfold score_ge. simpl. intros; lia.
Qed.

Lemma sort_desc_sorted (l : list CountryThreatScore.t) :
  StronglySorted score_ge (sort_desc l).
Proof.
  induction l as [|x l IH]; simpl; [constructor|].
  by apply insert_desc_sorted.
Qed.

Lemma strongly_sorted_lookup (l : list CountryThreatScore.t) :
  StronglySorted score_ge l -> sorted_by_score_desc l.
Proof.
  induction 1 as [|z l Hl IH Hz]; intros i j x y Hij Hi Hj.
  - discriminate Hi.
  - destruct j as [|j]; [lia|]. simpl in Hj.
    destruct i as [|i]; simpl in Hi.
    + injection Hi as <-. rewrite Forall_forall in Hz.
      apply Hz. eapply list_elem_of_lookup_2. exact Hj.
    + apply (IH i j); [lia|assumption..].
Qed.

Lemma sorted_take (n : nat) (l : list CountryThreatScore.t) :
  sorted_by_score_desc l -> sorted_by_score_desc (take n l).
Proof.
  intros Hl i j x y Hij Hi Hj.
  apply lookup_take_Some in Hi as [Hi _], Hj as [Hj _].
  by apply (Hl i j).
Qed.

Lemma In_take {A} (n : nat) (l : list A) (x : A) : In x (take n l) -> In x l.
Proof.
  intros H. rewrite <- (take_drop n l). apply in_or_app. by left.
Qed.

(** A sort of entries by descending score: it is stable. *)
Example sort_desc_is_stable :
  let entry c s := {| CountryThreatScore.country := VStr c;
                      CountryThreatScore.score := s;
                      CountryThreatScore.attack_count := 1;
                      CountryThreatScore.critical_count := 0 |} in
  sort_desc [entry "a" 8; entry "b" 31; entry "c" 8; entry "d" 31]%Z =
  [entry "b" 31; entry "d" 31; entry "a" 8; entry "c" 8]%Z.
Proof. reflexivity. Qed.

Lemma filterM_inr_filter {A} (p : A -> result bool) (l l' : list A) :
  filterM p l = inr l' ->
  l' = List.filter (fun a => match p a with inr b => b | inl _ => false end) l.
Proof.
  revert l'. induction l as [|a l IH]; simpl; intros l' H.
  - by injection H as <-.
  - destruct (p a) as [e|b]; [discriminate|]. simpl in H.
    destruct (filterM p l) as [e|rest]; [discriminate|]. simpl in H.
    injection H as <-. rewrite (IH rest eq_refl). by destruct b.
Qed.

(** The analysed entries are those of the time window, or the last
    [fallback] entries of the buffer when the window is empty. *)
Lemma analysed_attacks_window (iso_timestamp : string -> result float)
    (window : Z) (fallback : nat) (recent_attacks : deque value) (now : float)
    (l : list value) :
  analysed_attacks iso_timestamp window fallback recent_attacks now = inr l ->
  l = if is_empty (time_window iso_timestamp window recent_attacks now)
      then last_n fallback (deque_list recent_attacks)
      else time_window iso_timestamp window recent_attacks now.
Proof.
  unfold analysed_attacks, time_window.
  destruct (PyFloat.float_sub_int now window) as [e|recent_time];
    [discriminate|]. simpl.
  destruct (filterM _ _) as [e|l0] eqn:Hl0; [discriminate|]. simpl.
  intros [= <-]. by rewrite (filterM_inr_filter _ _ _ Hl0).
Qed.

(** C9, as stated, fails for the scores it lists: one hour after the
    only attack of the buffer, no attack lies in the 600-second window,
    and yet France is listed with the score 8 of that attack, where the
    formula over the attacks of the window gives 0. *)
Lemma country_score_outside_window :
  time_window sample_iso_timestamp 600 buffer_with_old_attack 1735693200 = [] /\
  exists e,
    In e (calculate_country_threat_scores sample_iso_timestamp
            buffer_with_old_attack 1735693200) /\
    CountryThreatScore.country e = VStr "France" /\
    CountryThreatScore.score e = 8%Z /\
    stated_country_score (CountryThreatScore.country e)
      (time_window sample_iso_timestamp 600 buffer_with_old_attack 1735693200)
      = 0%Z.
Proof.
  split; [vm_compute; reflexivity|].
  exists {| CountryThreatScore.country := VStr "France";
            CountryThreatScore.score := 8;
            CountryThreatScore.attack_count := 1;
            CountryThreatScore.critical_count := 0 |}.
  repeat split; vm_compute; auto.
Qed.

(** C9, amended. The per-country scores are at most 10 entries, in
    descending order of score, and the score of every listed country is
    [min(100, attack_count * 5 + severity_sum * 3)], with the weights
    Critical = 4, High = 3, Medium = 2, Low = 1, over the attacks on
    that country among the analysed entries: those of the last 600
    seconds or, when there is none, the last 30 entries of the buffer. *)
Theorem country_scores_top_10_sorted (iso_timestamp : string -> result float)
    (recent_attacks : deque value) (now : float) :
  let scores := calculate_country_threat_scores iso_timestamp recent_attacks now in
  length scores <= 10 /\
  sorted_by_score_desc scores /\
  forall e, In e scores ->
    exists window,
      analysed_attacks iso_timestamp 600 30 recent_attacks now = inr window /\
      window = (if is_empty (time_window iso_timestamp 600 recent_attacks now)
                then last_n 30 (deque_list recent_attacks)
                else time_window iso_timestamp 600 recent_attacks now) /\
      CountryThreatScore.attack_count e =
        Z.of_nat (length (attacks_on (CountryThreatScore.country e) window)) /\
      CountryThreatScore.score e =
        stated_country_score (CountryThreatScore.country e) window.
Proof.
  intros scores. subst scores.
  unfold calculate_country_threat_scores, calculate_country_threat_scores_body.
  assert (Hnil : length (@nil CountryThreatScore.t) <= 10 /\
                 sorted_by_score_desc [] /\
                 forall e, In e [] ->
                   exists window,
                     analysed_attacks iso_timestamp 600 30 recent_attacks now
                       = inr window /\
                     window =
                       (if is_empty (time_window iso_timestamp 600
                                       recent_attacks now)
                        then last_n 30 (deque_list recent_attacks)
                        else time_window iso_timestamp 600 recent_attacks now) /\
                     CountryThreatScore.attack_count e =
                       Z.of_nat (length (attacks_on (CountryThreatScore.country e)
                                                    window)) /\
                     CountryThreatScore.score e =
                       stated_country_score (CountryThreatScore.country e) window).
  { split; [simpl; lia|]. split; [|intros e []].
    intros i j x y _ Hi. discriminate Hi. }
  destruct (is_empty (deque_list recent_attacks)); [exact Hnil|].
  destruct (analysed_attacks iso_timestamp 600 30 recent_attacks now)
    as [ex|window] eqn:Hwin; [exact Hnil|]. simpl.
  destruct (is_empty window); [exact Hnil|].
  destruct (group_by_country window []) as [ex|groups] eqn:Hgroups;
    [exact Hnil|]. simpl.
  destruct (mapM _ groups) as [ex|entries] eqn:Hentries; [exact Hnil|]. simpl.
  clear Hnil. split; [|split].
  - rewrite length_take. lia.
  - apply sorted_take, strongly_sorted_lookup, sort_desc_sorted.
  - intros e He. exists window. split; [reflexivity|].
    split; [by apply analysed_attacks_window|].
    assert (He' : In e entries).
    { apply sort_desc_In. eapply In_take. exact He. }
    destruct (mapM_inr_In _ _ _ Hentries e He') as ([[c k] attacks] & Hg & Hce).
    simpl in Hce.
    destruct (country_entry_score c attacks e Hce) as (Hc & Hn & Hs).
    pose proof (group_by_country_groups window [] groups [] groups_of_nil Hgroups)
      as (_ & Hgs & _).
    destruct (Hgs c k attacks Hg) as [Hk Hattacks]. simpl in Hattacks.
    unfold stated_country_score, attacks_on.
    rewrite Hc, Hk, <- Hattacks. auto.
Qed.

(** The scores of a buffer with attacks on three countries, all within
    the last 600 seconds. *)
Example country_scores_sample :
  let old := "2025-01-01T00:00:00Z" in
  let new := "2025-01-01T00:04:00Z" in
  calculate_country_threat_scores sample_iso_timestamp
    (sample_buffer [sample_attack old "Low" "Port Scan" "France";
                    sample_attack new "Critical" "HTTP Flood" "Japan";
                    sample_attack new "Low" "Port Scan" "Brazil";
                    sample_attack new "High" "Port Scan" "Japan"])
    1735689900 =
  [{| CountryThreatScore.country := VStr "Japan";
      CountryThreatScore.score := 31;
      CountryThreatScore.attack_count := 2;
      CountryThreatScore.critical_count := 1 |};
   {| CountryThreatScore.country := VStr "France";
      CountryThreatScore.score := 8;
      CountryThreatScore.attack_count := 1;
      CountryThreatScore.critical_count := 0 |};
   {| CountryThreatScore.country := VStr "Brazil";
      CountryThreatScore.score := 8;
      CountryThreatScore.attack_count := 1;
      CountryThreatScore.critical_count := 0 |}].
Proof. vm_compute. reflexivity. Qed.

(** ** The range of a score

    The score of every record the function returns, and so of every
    record of the history, lies between 0 and 100. *)

Lemma binary_round_aux_not_negative (mx ex : Z) (lx : location) :
  not_negative (binary_round_aux prec emax false mx ex lx).
Proof.
  unfold binary_round_aux.
  destruct (shr_fexp prec emax mx ex lx) as [mrs' e'].
  destruct (shr_fexp prec emax _ e' loc_Exact) as [mrs'' e''].
  destruct (shr_m mrs''); simpl; [exact I| |exact I].
  destruct (_ <=? _)%Z; exact I.
Qed.

Lemma binary_round_not_negative (m : positive) (e : Z) :
  not_negative (binary_round prec emax false m e).
Proof.
  unfold binary_round. destruct (shl_align _ _ _) as [mz ez].
  apply binary_round_aux_not_negative.
Qed.

Lemma binary_normalize_not_negative (z e : Z) :
  (0 <= z)%Z -> not_negative (binary_normalize prec emax z e false).
Proof.
  intros Hz. destruct z as [|p|p]; simpl; [exact I| |lia].
  apply binary_round_not_negative.
Qed.

Lemma SF2Prim_nonneg (sf : spec_float) : not_negative sf -> nonneg (SF2Prim sf).
Proof.
  unfold nonneg. destruct sf as [[|]|[|]| |[|] m e]; simpl; intros H;
    try exact I; try destruct H.
  rewrite Z_ldexp_spec, of_uint63_spec.
  pose proof (Uint63.to_Z_bounded (Uint63.of_Z (Z.pos m))) as [Hge _].
  pose proof (binary_normalize_not_negative _ 0%Z Hge) as Hn.
  destruct (binary_normalize prec emax _ 0 false) as [[|]|[|]| |[|] m' e'];
    simpl in *; try exact I; try destruct Hn.
  apply binary_round_not_negative.
Qed.

Lemma of_int_nonneg (z : Z) (x : float) :
  (0 <= z)%Z -> PyFloat.of_int z = inr x -> nonneg x.
Proof.
  intros Hz. unfold PyFloat.of_int.
  pose proof (binary_normalize_not_negative z 0 Hz) as Hn.
  destruct (binary_normalize prec emax z 0 false) as [s|s| |s m e];
    try discriminate; intros [= <-]; exact (SF2Prim_nonneg _ Hn).
Qed.

Lemma SFdiv_not_negative (a b : Z) :
  (0 <= a)%Z -> (0 <= b)%Z ->
  not_negative (SFdiv prec emax (PyFloat.Z2SF a) (PyFloat.Z2SF b)).
Proof.
  intros Ha Hb. destruct a as [|p|p], b as [|q|q]; simpl; try exact I; try lia.
  destruct (SFdiv_core_binary _ _ _ _ _ _) as [[mz ez] lz].
  apply binary_round_aux_not_negative.
Qed.

Lemma int_truediv_nonneg (a b : Z) (x : float) :
  (0 <= a)%Z -> (0 <= b)%Z -> PyFloat.int_truediv a b = inr x -> nonneg x.
Proof.
  intros Ha Hb. unfold PyFloat.int_truediv.
  destruct (b =? 0)%Z; [discriminate|].
  pose proof (SFdiv_not_negative a b Ha Hb) as Hn.
  destruct (SFdiv prec emax _ _) as [s|s| |s m e];
    try discriminate; intros [= <-]; exact (SF2Prim_nonneg _ Hn).
Qed.

Lemma mul_nonneg (x y : float) : nonneg x -> nonneg y -> nonneg (x * y)%float.
Proof.
  unfold nonneg. rewrite FloatAxioms.mul_spec. unfold SF64mul.
  destruct (Prim2SF x) as [[|]|[|]| |[|] mx ex],
           (Prim2SF y) as [[|]|[|]| |[|] my ey];
    simpl; try tauto; intros _ _; apply binary_round_aux_not_negative.
Qed.

Lemma div_nonneg (x y : float) (my : positive) (ey : Z) :
  nonneg x -> Prim2SF y = S754_finite false my ey -> nonneg (x / y)%float.
Proof.
  unfold nonneg. rewrite FloatAxioms.div_spec. unfold SF64div. intros Hx ->.
  destruct (Prim2SF x) as [[|]|[|]| |[|] mx ex]; simpl in *; try tauto.
  destruct (SFdiv_core_binary _ _ _ _ _ _) as [[mz ez] lz].
  apply binary_round_aux_not_negative.
Qed.

Lemma add_nonneg (x y : float) : nonneg x -> nonneg y -> nonneg (x + y)%float.
Proof.
  unfold nonneg. rewrite FloatAxioms.add_spec. unfold SF64add.
  destruct (Prim2SF x) as [[|]|[|]| |[|] mx ex],
           (Prim2SF y) as [[|]|[|]| |[|] my ey];
    simpl; try tauto; intros _ _.
  apply binary_round_not_negative.
Qed.

Lemma min_nonneg (x y : float) : nonneg x -> nonneg y -> nonneg (PyFloat.min x y).
Proof. unfold PyFloat.min. by destruct (y <? x)%float. Qed.

Lemma to_int_nonneg (x : float) (z : Z) :
  nonneg x -> PyFloat.to_int x = inr z -> (0 <= z)%Z.
Proof.
  unfold nonneg, PyFloat.to_int.
  destruct (Prim2SF x) as [[|]|[|]| |[|] m e]; simpl;
    try discriminate; try tauto; intros _ [= <-]; try lia.
  destruct (Z.leb_spec 0 e).
  - apply Z.mul_nonneg_nonneg; [lia|]. apply Z.pow_nonneg. lia.
  - apply Z.div_pos; [lia|]. apply Z.pow_pos_nonneg; lia.
Qed.

Lemma nonneg_literals :
  nonneg 1.5 /\ nonneg 2 /\ nonneg 15 /\ nonneg 20 /\ nonneg 30 /\ nonneg 40
  /\ nonneg 0.
Proof. repeat split; vm_compute; exact I. Qed.

Lemma int_mul_float_nonneg (n : Z) (x y : float) :
  (0 <= n)%Z -> nonneg x -> PyFloat.int_mul_float n x = inr y -> nonneg y.
Proof.
  intros Hn Hx. unfold PyFloat.int_mul_float.
  destruct (PyFloat.of_int n) as [e|fn] eqn:Hfn; [discriminate|]. simpl.
  intros [= <-]. apply mul_nonneg; [|exact Hx]. by apply (of_int_nonneg n).
Qed.

Lemma int_div_two_nonneg (n : Z) (y : float) :
  (0 <= n)%Z -> PyFloat.int_div_float n 2 = inr y -> nonneg y.
Proof.
  intros Hn. unfold PyFloat.int_div_float.
  destruct (PyFloat.of_int n) as [e|fn] eqn:Hfn; [discriminate|]. simpl.
  intros [= <-].
  apply (div_nonneg fn 2 4503599627370496 (-51));
    [by apply (of_int_nonneg n)|vm_compute; reflexivity].
Qed.

Lemma weight_get_nonneg (weights : list (string * Z)) (key : value)
    (default w : Z) :
  Forall (fun kv => (0 <= snd kv)%Z) weights -> (0 <= default)%Z ->
  weight_get weights key default = inr w -> (0 <= w)%Z.
Proof.
  intros Hw Hd. unfold weight_get.
  destruct (hash_key key) as [e|k]; [discriminate|]. simpl.
  assert (Ha : forall s, (0 <= match assoc s weights with
                               | Some w0 => w0
                               | None => default
                               end)%Z).
  { intros s. induction Hw as [|[k' v] weights Hv Hw IH]; simpl; [exact Hd|].
    destruct (String.eqb s k'); [exact Hv|exact IH]. }
  destruct k; intros [= <-]; auto.
Qed.

Lemma mapM_Forall {A B} (f : A -> result B) (P : B -> Prop) (l : list A)
    (bs : list B) :
  (forall a b, f a = inr b -> P b) -> mapM f l = inr bs -> Forall P bs.
Proof.
  intros Hf H. apply Forall_forall. intros b Hb%list_elem_of_In.
  destruct (mapM_inr_In f l bs H b Hb) as (a & _ & Ha). eauto.
Qed.

Lemma sum_nonneg (l : list Z) : Forall (fun x => (0 <= x)%Z) l -> (0 <= sum l)%Z.
Proof.
  induction 1 as [|x l Hx Hl IH]; [done|]. rewrite sum_cons. lia.
Qed.

Section FactorSigns.

Variable iso_timestamp : string -> result float.

Lemma frequency_factor_nonneg (l : list value) (x : float) :
  frequency_factor l = inr x -> nonneg x.
Proof.
  unfold frequency_factor.
  destruct (PyFloat.int_mul_float _ _) as [e|y] eqn:Hy; [discriminate|]. simpl.
  intros [= <-]. apply min_nonneg; [apply nonneg_literals|].
  apply (int_mul_float_nonneg _ _ _ (Zle_0_nat _) (proj1 nonneg_literals) Hy).
Qed.

Lemma severity_factor_nonneg (l : list value) (x : float) :
  severity_factor l = inr x -> nonneg x.
Proof.
  unfold severity_factor.
  destruct (mapM _ l) as [e|ws] eqn:Hws; [discriminate|]. simpl.
  destruct (PyFloat.int_div_float _ _) as [e|y] eqn:Hy; [discriminate|]. simpl.
  intros [= <-]. apply min_nonneg; [apply nonneg_literals|].
  apply (int_div_two_nonneg (sum ws)); [|exact Hy].
  apply sum_nonneg. eapply mapM_Forall; [|exact Hws].
  intros a w. simpl.
  destruct (get a "severity" (VStr "Low")) as [e|sev]; [discriminate|]. simpl.
  apply weight_get_nonneg; [|lia].
  unfold severity_weights. repeat constructor; simpl; lia.
Qed.

Lemma diversity_factor_nonneg (l : list value) (x : float) :
  diversity_factor l = inr x -> nonneg x.
Proof.
  unfold diversity_factor.
  destruct (mapM _ l) as [e|ks]; [discriminate|]. simpl.
  destruct (PyFloat.int_mul_float _ _) as [e|y] eqn:Hy; [discriminate|]. simpl.
  intros [= <-]. apply min_nonneg; [apply nonneg_literals|].
  apply (int_mul_float_nonneg _ _ _ (Zle_0_nat _) (proj1 (proj2 nonneg_literals)) Hy).
Qed.

Lemma concentration_factor_nonneg (l : list value) (x : float) :
  concentration_factor l = inr x -> nonneg x.
Proof.
  unfold concentration_factor.
  destruct (filter_mapM _ _ l) as [e|cs]; [discriminate|]. simpl.
  destruct (is_empty cs); [intros [= <-]; apply nonneg_literals|].
  destruct (mapM hash_key cs) as [e|ks]; [discriminate|]. simpl.
  destruct (PyFloat.int_truediv _ _) as [e|share] eqn:Hs; [discriminate|]. simpl.
  intros [= <-]. apply min_nonneg; [apply nonneg_literals|].
  apply mul_nonneg; [|apply nonneg_literals].
  apply (int_truediv_nonneg _ _ _ (Zle_0_nat _) (Zle_0_nat _) Hs).
Qed.

Lemma scores_in_range_append (history : deque ThreatScoreResult)
    (r : ThreatScoreResult) :
  scores_in_range history -> (0 <= score r <= 100)%Z ->
  scores_in_range (deque_append history r).
Proof.
  unfold scores_in_range, deque_append, deque_list. simpl. intros Hh Hr.
  assert (Hl : Forall (fun r0 => (0 <= score r0 <= 100)%Z) (items history ++ [r])).
  { apply Forall_app. split; [exact Hh|]. by constructor. }
  destruct (maxlen history) as [n|]; [|exact Hl].
  destruct (n <? _)%nat; [|exact Hl]. by apply Forall_drop.
Qed.

(** Every result of [calculate_threat_score] has a score from 0 to 100,
    and a history of such scores stays one. *)
Theorem score_in_range (recent_attacks : deque value)
    (history history' : deque ThreatScoreResult) (now : float) (now_iso : string)
    (r : ThreatScoreResult) :
  calculate_threat_score iso_timestamp recent_attacks history now now_iso
    = inr (r, history') ->
  (0 <= score r <= 100)%Z /\
  (scores_in_range history -> scores_in_range history').
Proof.
  unfold calculate_threat_score, try_except.
  destruct (calculate_threat_score_body _ _ _ _ _) as [e|[r0 h0]] eqn:Hbody;
    [intros [= <- <-]; simpl; split; [lia|auto]|].
  intros [= -> ->]. revert Hbody. unfold calculate_threat_score_body.
  destruct (is_empty (deque_list recent_attacks));
    [intros [= <- <-]; simpl; split; [lia|auto]|].
  destruct (analysed_attacks _ _ _ _ _) as [e|l]; [discriminate|]. simpl.
  destruct (is_empty l); [intros [= <- <-]; simpl; split; [lia|auto]|].
  destruct (frequency_factor l) as [e|f] eqn:Hf; [discriminate|]. simpl.
  destruct (severity_factor l) as [e|s] eqn:Hs; [discriminate|]. simpl.
  destruct (diversity_factor l) as [e|d] eqn:Hd; [discriminate|]. simpl.
  destruct (concentration_factor l) as [e|c] eqn:Hc; [discriminate|]. simpl.
  destruct (PyFloat.to_int _) as [e|total] eqn:Ht; [discriminate|]. simpl.
  destruct (_calculate_trend _ _) as [e|tr]; [discriminate|]. simpl.
  destruct (_round_scores _) as [e|rounded]; [discriminate|]. simpl.
  intros [= <- <-]. simpl.
  assert (Hr : (0 <= Z.min 100 total <= 100)%Z).
  { apply to_int_nonneg in Ht; [lia|].
    repeat apply add_nonneg;
      eauto using frequency_factor_nonneg, severity_factor_nonneg,
                  diversity_factor_nonneg, concentration_factor_nonneg. }
  split; [exact Hr|]. intros Hh. by apply scores_in_range_append.
Qed.

End FactorSigns.

(* ===================================================================== *)
(** * Further properties *)
(* ===================================================================== *)

(** ** Scores and their history *)

Lemma trend_of_average_values (esc de_esc total : Z) (n : nat)
    (current_score : Z) (tr : string) :
  trend_of_average esc de_esc total n current_score = inr tr ->
  tr = "stable" \/ tr = "escalating" \/ tr = "de-escalating".
Proof.
  unfold trend_of_average.
  destruct (PyFloat.int_truediv _ _) as [e|avg]; [discriminate|]. simpl.
  destruct (PyFloat.float_add_int _ _) as [e|above]; [discriminate|]. simpl.
  destruct (PyFloat.int_gt_float _ _); [intros [= <-]; auto|].
  destruct (PyFloat.float_sub_int _ _) as [e|below]; [discriminate|]. simpl.
  destruct (PyFloat.int_lt_float _ _); intros [= <-]; auto.
Qed.

Lemma _calculate_trend_values (history : deque ThreatScoreResult)
    (current_score : Z) (tr : string) :
  _calculate_trend history current_score = inr tr ->
  tr = "stable" \/ tr = "escalating" \/ tr = "de-escalating".
Proof.
  unfold _calculate_trend.
  destruct (_ <? _)%nat; [intros [= <-]; auto|].
  apply trend_of_average_values.
Qed.

Lemma zero_score_well_formed (now_iso : string) :
  well_formed_record (zero_score now_iso).
Proof. repeat split; simpl; auto; lia. Qed.

(** What a call does to the history: nothing, or one append of the
    record it returns. *)
Lemma calculate_threat_score_history (iso_timestamp : string -> result float)
    (recent_attacks : deque value) (history history' : deque ThreatScoreResult)
    (now : float) (now_iso : string) (r : ThreatScoreResult) :
  calculate_threat_score iso_timestamp recent_attacks history now now_iso
    = inr (r, history') ->
  well_formed_record r /\
  (history' = history \/ history' = deque_append history r).
Proof.
  intros H.
  destruct (score_in_range iso_timestamp _ _ _ _ _ _ H) as [Hr _].
  revert H. unfold calculate_threat_score, try_except.
  destruct (calculate_threat_score_body _ _ _ _ _) as [e|[r0 h0]] eqn:Hbody;
    [intros [= <- <-]; split; [apply zero_score_well_formed|auto]|].
  intros [= -> ->]. revert Hbody. unfold calculate_threat_score_body.
  destruct (is_empty (deque_list recent_attacks));
    [intros [= <- <-]; split; [apply zero_score_well_formed|auto]|].
  destruct (analysed_attacks _ _ _ _ _) as [e|l]; [discriminate|]. simpl.
  destruct (is_empty l);
    [intros [= <- <-]; split; [apply zero_score_well_formed|auto]|].
  destruct (frequency_factor l) as [e|f]; [discriminate|]. simpl.
  destruct (severity_factor l) as [e|s]; [discriminate|]. simpl.
  destruct (diversity_factor l) as [e|d]; [discriminate|]. simpl.
  destruct (concentration_factor l) as [e|c]; [discriminate|]. simpl.
  destruct (PyFloat.to_int _) as [e|total]; [discriminate|]. simpl.
  destruct (_calculate_trend _ _) as [e|tr] eqn:Htr; [discriminate|]. simpl.
  destruct (_round_scores _) as [e|rounded]; [discriminate|]. simpl.
  intros [= <- <-]. split; [|auto].
  split; [exact Hr|]. split; [reflexivity|]. simpl.
  eapply _calculate_trend_values, Htr.
Qed.

(** X1. Every record [calculate_threat_score] returns has a score from 0
    to 100, the level of that score and one of the three trends; the
    call leaves the history as it was or appends that record to it, and
    a history of scores from 0 to 100 stays one. *)
Theorem score_record_well_formed (iso_timestamp : string -> result float)
    (recent_attacks : deque value) (history history' : deque ThreatScoreResult)
    (now : float) (now_iso : string) (r : ThreatScoreResult) :
  calculate_threat_score iso_timestamp recent_attacks history now now_iso
    = inr (r, history') ->
  well_formed_record r /\
  (history' = history \/ history' = deque_append history r) /\
  (scores_in_range history -> scores_in_range history').
Proof.
  intros H.
  destruct (calculate_threat_score_history _ _ _ _ _ _ _ H) as [Hwf Hh].
  destruct (score_in_range _ _ _ _ _ _ _ H) as [_ Hs].
  auto.
Qed.

(** Three recent attacks, scored at 2025-01-01T00:05:00Z. *)
Lemma score_record_well_formed_witness :
  well_formed_record (sample_result three_attacks 1735689900) /\
  (scores_in_range empty_history ->
   scores_in_range
     (deque_append empty_history (sample_result three_attacks 1735689900))).
Proof.
  assert (H : calculate_threat_score sample_iso_timestamp
                (sample_buffer three_attacks) empty_history 1735689900
                "2025-01-01T00:05:00+00:00"
              = inr (sample_result three_attacks 1735689900,
                     deque_append empty_history
                       (sample_result three_attacks 1735689900)))
    by (vm_compute; reflexivity).
  pose proof (score_record_well_formed _ _ _ _ _ _ _ H) as (Hwf & _ & Hs).
  exact (conj Hwf Hs).
Defined.

Lemma deque_append_bounded {A} (d : deque A) (x : A) (n : nat) :
  maxlen d = Some n -> deque_len d <= n ->
  maxlen (deque_append d x) = Some n /\ deque_len (deque_append d x) <= n.
Proof.
  unfold deque_append, deque_len. simpl. intros -> Hlen. split; [reflexivity|].
  rewrite length_app. simpl.
  destruct (Nat.ltb_spec n (length (items d) + 1)).
  - rewrite length_drop, length_app. simpl. lia.
  - rewrite length_app. simpl. lia.
Qed.

(** X2. However often the score is computed, on whatever buffers and
    at whatever times, the history never holds more than
    [MAX_THREAT_HISTORY] = 60 records, and each record in it has a
    score from 0 to 100, the level of that score and one of the three
    trends. *)
Theorem history_invariant (iso_timestamp : string -> result float)
    (calls : list score_call) :
  let history := history_after iso_timestamp calls in
  MAX_THREAT_HISTORY = 60 /\
  deque_len history <= MAX_THREAT_HISTORY /\
  Forall well_formed_record (deque_list history).
Proof.
  intros history. subst history. split; [reflexivity|].
  unfold history_after.
  assert (Hgen : forall h,
    maxlen h = Some MAX_THREAT_HISTORY ->
    deque_len h <= MAX_THREAT_HISTORY ->
    Forall well_formed_record (deque_list h) ->
    deque_len (fold_left (history_step iso_timestamp) calls h)
      <= MAX_THREAT_HISTORY /\
    Forall well_formed_record
      (deque_list (fold_left (history_step iso_timestamp) calls h))).
  { induction calls as [|c calls IH]; intros h Hm Hlen Hwf; simpl; [auto|].
    unfold history_step at 2 4.
    destruct (calculate_threat_score _ _ _ _ _) as [e|[r h']] eqn:Hcall;
      [by apply IH|].
    destruct (calculate_threat_score_history _ _ _ _ _ _ _ Hcall)
      as [Hr [->| ->]]; [by apply IH|].
    destruct (deque_append_bounded h r _ Hm Hlen) as [Hm' Hlen'].
    apply IH; [exact Hm'|exact Hlen'|].
    unfold deque_list, deque_append. simpl. rewrite Hm.
    assert (Hl : Forall well_formed_record (items h ++ [r])).
    { apply Forall_app. split; [exact Hwf|by constructor]. }
    destruct (_ <? _)%nat; [by apply Forall_drop|exact Hl]. }
  apply Hgen; [reflexivity|unfold deque_len; simpl; lia|constructor].
Qed.

(** X3. The service with its default configuration computes the record
    that [calculate_threat_score] of [app.py] computes on the same
    buffer, history and clock, and raises in its body exactly when the
    other does; only [app.py] appends the record to the history. *)
Theorem service_agrees_with_app (iso_timestamp : string -> result float)
    (recent_attacks : deque value) (history : deque ThreatScoreResult)
    (now : float) (now_iso : string) :
  ThreatScoringService.calculate_score_body iso_timestamp
    ThreatScoringService.default (deque_list recent_attacks) history now now_iso
  = match calculate_threat_score_body iso_timestamp recent_attacks history
            now now_iso with
    | inr (r, _) => inr r
    | inl e => inl e
    end /\
  ThreatScoringService.calculate_score iso_timestamp
    ThreatScoringService.default (deque_list recent_attacks) history now now_iso
  = match calculate_threat_score iso_timestamp recent_attacks history
            now now_iso with
    | inr (r, _) => inr r
    | inl e => inl e
    end.
Proof.
  assert (Hbody :
    ThreatScoringService.calculate_score_body iso_timestamp
      ThreatScoringService.default (deque_list recent_attacks) history now now_iso
    = match calculate_threat_score_body iso_timestamp recent_attacks history
              now now_iso with
      | inr (r, _) => inr r
      | inl e => inl e
      end).
  { unfold ThreatScoringService.calculate_score_body,
      calculate_threat_score_body, analysed_attacks.
    destruct (is_empty (deque_list recent_attacks)); [reflexivity|].
    simpl ThreatScoringService.analysis_window.
    unfold _ANALYSIS_WINDOW_SECONDS.
    destruct (PyFloat.float_sub_int now 300) as [e|recent_time];
      [reflexivity|]. simpl.
    destruct (filterM _ _) as [e|filtered]; [reflexivity|]. simpl.
    destruct (is_empty (if is_empty filtered then _ else _)); [reflexivity|].
    change (ThreatScoringService._calculate_frequency ?l)
      with (frequency_factor l).
    change (ThreatScoringService._calculate_severity ?l)
      with (severity_factor l).
    change (ThreatScoringService._calculate_diversity ?l)
      with (diversity_factor l).
    change (ThreatScoringService._calculate_concentration ?l)
      with (concentration_factor l).
    destruct (frequency_factor _) as [e|f]; [reflexivity|]. simpl.
    destruct (severity_factor _) as [e|s]; [reflexivity|]. simpl.
    destruct (diversity_factor _) as [e|d]; [reflexivity|]. simpl.
    destruct (concentration_factor _) as [e|c]; [reflexivity|]. simpl.
    destruct (PyFloat.to_int _) as [e|total]; [reflexivity|]. simpl.
    change (ThreatScoringService._calculate_trend ThreatScoringService.default
              history (Z.min 100 total))
      with (_calculate_trend history (Z.min 100 total)).
    destruct (_calculate_trend _ _) as [e|tr]; [reflexivity|]. simpl.
    change (ThreatScoringService._round_factors ThreatScoringService.default ?x)
      with (_round_scores x).
    destruct (_round_scores _) as [e|rounded]; reflexivity. }
  split; [exact Hbody|].
  unfold ThreatScoringService.calculate_score, calculate_threat_score, try_except.
  rewrite Hbody.
  destruct (calculate_threat_score_body _ _ _ _ _) as [e|[r h]]; reflexivity.
Qed.

(** X4. The level never goes down when the score goes up, and every
    level is one of the four. The same holds for the service, whose
    thresholds are configured, as long as they are in ascending
    order. *)
Theorem threat_level_monotone (s1 s2 : Z) (self : ThreatScoringService.t) :
  (s1 <= s2)%Z ->
  level_rank (_classify_threat_level s1) <= level_rank (_classify_threat_level s2) /\
  In (_classify_threat_level s1) ["Low"; "Medium"; "High"; "Critical"] /\
  ((ThreatScoringService.threshold_medium self
      <= ThreatScoringService.threshold_high self
      <= ThreatScoringService.threshold_critical self)%Z ->
   level_rank (ThreatScoringService._classify_level self s1)
     <= level_rank (ThreatScoringService._classify_level self s2)).
Proof.
  intros Hle. unfold _classify_threat_level, ThreatScoringService._classify_level,
    THREAT_LEVEL_CRITICAL, THREAT_LEVEL_HIGH, THREAT_LEVEL_MEDIUM.
  split; [|split].
  - destruct (Z.leb_spec 80 s1), (Z.leb_spec 80 s2),
             (Z.leb_spec 60 s1), (Z.leb_spec 60 s2),
             (Z.leb_spec 35 s1), (Z.leb_spec 35 s2); vm_compute; lia.
  - destruct (80 <=? s1)%Z, (60 <=? s1)%Z, (35 <=? s1)%Z; simpl; auto.
  - intros Hth.
    destruct (Z.leb_spec (ThreatScoringService.threshold_critical self) s1),
             (Z.leb_spec (ThreatScoringService.threshold_critical self) s2),
             (Z.leb_spec (ThreatScoringService.threshold_high self) s1),
             (Z.leb_spec (ThreatScoringService.threshold_high self) s2),
             (Z.leb_spec (ThreatScoringService.threshold_medium self) s1),
             (Z.leb_spec (ThreatScoringService.threshold_medium self) s2);
      try (vm_compute; lia); lia.
Qed.

Lemma threat_level_monotone_witness :
  level_rank (_classify_threat_level 59) <= level_rank (_classify_threat_level 60) /\
  In (_classify_threat_level 59) ["Low"; "Medium"; "High"; "Critical"] /\
  ((ThreatScoringService.threshold_medium ThreatScoringService.default
      <= ThreatScoringService.threshold_high ThreatScoringService.default
      <= ThreatScoringService.threshold_critical ThreatScoringService.default)%Z ->
   level_rank (ThreatScoringService._classify_level ThreatScoringService.default 59)
     <= level_rank (ThreatScoringService._classify_level
                      ThreatScoringService.default 60)).
Proof. apply (threat_level_monotone 59 60 ThreatScoringService.default). lia. Defined.

Lemma last_n_app_exact {A} (n : nat) (older recent : list A) :
  length recent = n -> last_n n (older ++ recent) = recent.
Proof.
  intros <-. unfold last_n. rewrite length_app.
  replace (length older + length recent - length recent) with (length older + 0)
    by lia.
  rewrite drop_app_add. reflexivity.
Qed.

(** X5. The trend depends on the last five records of the history
    only: records before them, however many and whatever their scores,
    and the capacity of the history, do not change it. *)
Theorem trend_reads_last_five_only (older1 older2 recent : list ThreatScoreResult)
    (maxlen1 maxlen2 : option nat) (current_score : Z) :
  length recent = 5 ->
  _calculate_trend (Deque maxlen1 (older1 ++ recent)) current_score =
  _calculate_trend (Deque maxlen2 (older2 ++ recent)) current_score.
Proof.
  intros Hlen. unfold _calculate_trend, deque_len, deque_list. simpl.
  rewrite !length_app, Hlen.
  replace (length older1 + 5 <? 5)%nat with false
    by (symmetry; apply Nat.ltb_ge; lia).
  replace (length older2 + 5 <? 5)%nat with false
    by (symmetry; apply Nat.ltb_ge; lia).
  by rewrite !(last_n_app_exact 5) by exact Hlen.
Qed.

Lemma trend_reads_last_five_only_witness :
  _calculate_trend (Deque (Some 60) ([sample_record 100] ++ repeat (sample_record 50) 5)) 65 =
  _calculate_trend (Deque None ([] ++ repeat (sample_record 50) 5)) 65.
Proof.
  apply (trend_reads_last_five_only [sample_record 100] []
           (repeat (sample_record 50) 5) (Some 60) None 65).
  reflexivity.
Defined.

(** X6. For a buffer that is not empty, the entries a score is computed
    from are never empty: when no entry lies in the time window, the
    last entries of the buffer stand in. The second empty-list guard of
    [calculate_threat_score] and of [calculate_country_threat_scores]
    is therefore never taken. *)
Theorem analysed_attacks_not_empty (iso_timestamp : string -> result float)
    (window : Z) (fallback : nat) (recent_attacks : deque value) (now : float)
    (l : list value) :
  deque_list recent_attacks <> [] -> 0 < fallback ->
  analysed_attacks iso_timestamp window fallback recent_attacks now = inr l ->
  l <> [].
Proof.
  intros Hne Hfb. unfold analysed_attacks.
  destruct (PyFloat.float_sub_int now window) as [e|recent_time];
    [discriminate|]. simpl.
  destruct (filterM _ _) as [e|l0]; [discriminate|]. simpl.
  intros [= <-]. destruct l0 as [|a l0]; simpl; [|discriminate].
  unfold last_n. intros Hnil.
  apply (f_equal length) in Hnil. rewrite length_drop in Hnil. simpl in Hnil.
  destruct (deque_list recent_attacks); [by apply Hne|]. simpl in Hnil. lia.
Qed.

(** The buffer holding one attack that is older than the window. *)
Lemma analysed_attacks_not_empty_witness :
  deque_list buffer_with_old_attack <> [].
Proof.
  apply (analysed_attacks_not_empty sample_iso_timestamp 600 30
           buffer_with_old_attack 1735693200 (deque_list buffer_with_old_attack)).
  - discriminate.
  - lia.
  - vm_compute. reflexivity.
Defined.

(** ** The factors of the score *)

Lemma float_is_b_true (x : result float) (q : Q) :
  float_is_b x q = true -> exists x', x = inr x' /\ float_is x' q.
Proof.
  unfold float_is_b, float_is. destruct x as [e|x']; [discriminate|].
  intros H. exists x'. split; [reflexivity|].
  destruct (float_to_Q x'); [by apply Qeq_bool_iff|discriminate].
Qed.

Lemma frequency_checked : frequency_exact_upto 100 = true.
Proof. vm_compute. reflexivity. Qed.

Lemma severity_checked : severity_exact_upto 1000 = true.
Proof. vm_compute. reflexivity. Qed.

Lemma diversity_checked : diversity_exact_upto 100 = true.
Proof. vm_compute. reflexivity. Qed.

(** X7. For a list of at most 100 attacks (the buffer holds no more),
    the frequency factor is computed without rounding: it is exactly
    [1.5 * count] up to 20 attacks and the cap 30 from there on. *)
Theorem frequency_factor_exact (l : list value) :
  length l <= 100 ->
  exists x, frequency_factor l = inr x /\
            float_is x (if (length l <=? 20)%nat
                        then (3 * Z.of_nat (length l) # 2)
                        else 30%Q).
Proof.
  intros Hlen. pose proof frequency_checked as H.
  unfold frequency_exact_upto in H. rewrite forallb_forall in H.
  specialize (H (length l) ltac:(apply in_seq; lia)).
  apply float_is_b_true in H as (x & Hx & Hq).
  exists x. split; [exact Hx|].
  unfold capped_half in Hq.
  destruct (Nat.leb_spec (length l) 20), (Z.leb_spec (3 * Z.of_nat (length l)) (2 * 30));
    try lia; exact Hq.
Qed.

Lemma frequency_factor_exact_witness :
  exists x, frequency_factor three_attacks = inr x /\
            float_is x (if (length three_attacks <=? 20)%nat
                        then (3 * Z.of_nat (length three_attacks) # 2)
                        else 30%Q).
Proof. apply (frequency_factor_exact three_attacks). simpl. lia. Defined.

Lemma score_weight_stated (a : value) (w : Z) :
  (let! sev := get a "severity" (VStr "Low") in
   weight_get severity_weights sev 1) = inr w ->
  w = stated_score_weight a.
Proof.
  unfold stated_score_weight.
  destruct (get a "severity" (VStr "Low")) as [e|sev]; [discriminate|]. simpl.
  unfold weight_get, bind, ret, raise.
  destruct sev as [|b|z|f|s|l|kvs]; simpl;
    try (intros [= <-]; reflexivity); try discriminate.
  - pose proof (hkey_of_float_not_str f) as Hf.
    destruct (hkey_of_float f); try (intros [= <-]; reflexivity).
    by destruct (Hf s).
  - intros [= <-].
    destruct (String.eqb s "Critical"); [reflexivity|].
    destruct (String.eqb s "High"); [reflexivity|].
    destruct (String.eqb s "Medium"); [reflexivity|].
    destruct (String.eqb s "Low"); reflexivity.
Qed.

Lemma stated_score_weight_bounds (a : value) :
  (0 <= stated_score_weight a <= 10)%Z.
Proof.
  unfold stated_score_weight.
  destruct (get a "severity" (VStr "Low")) as [e|[|b|z|f|s|l|kvs]]; try lia.
  destruct (String.eqb s "Critical"); [lia|].
  destruct (String.eqb s "High"); [lia|].
  destruct (String.eqb s "Medium"); lia.
Qed.

Lemma sum_map_bounds {A} (f : A -> Z) (l : list A) (b : Z) :
  (forall a, 0 <= f a <= b)%Z ->
  (0 <= sum (map f l) <= b * Z.of_nat (length l))%Z.
Proof.
  intros Hf. induction l as [|a l IH]; [simpl; unfold sum; simpl; lia|].
  simpl map. rewrite sum_cons. simpl length. specialize (Hf a). lia.
Qed.

(** X8. For a list of at most 100 attacks, the severity factor, when
    the severities can be read, is exactly half the sum of the weights
    Critical 10, High 6, Medium 3, Low 1 (1 also for a missing or
    unknown severity), up to the cap 40. *)
Theorem severity_factor_exact (l : list value) (x : float) :
  length l <= 100 ->
  severity_factor l = inr x ->
  let total := sum (map stated_score_weight l) in
  float_is x (if (total <=? 80)%Z then (total # 2) else 40%Q).
Proof.
  intros Hlen Hx total. subst total. revert Hx. unfold severity_factor.
  destruct (mapM _ l) as [e|ws] eqn:Hws; [discriminate|]. simpl.
  apply (mapM_inr_map _ stated_score_weight) in Hws; [|apply score_weight_stated].
  subst ws. set (total := sum (map stated_score_weight l)).
  assert (Ht : (0 <= total <= 1000)%Z).
  { pose proof (sum_map_bounds stated_score_weight l 10
                  stated_score_weight_bounds). subst total. lia. }
  pose proof severity_checked as H.
  unfold severity_exact_upto in H. rewrite forallb_forall in H.
  specialize (H (Z.to_nat total) ltac:(apply in_seq; lia)).
  rewrite Z2Nat.id in H by lia.
  apply float_is_b_true in H as (x' & Hx' & Hq).
  rewrite Hx'. intros [= <-].
  unfold capped_half in Hq. exact Hq.
Qed.

Lemma severity_factor_exact_witness :
  float_is 8.5 (if (sum (map stated_score_weight three_attacks) <=? 80)%Z
                then (sum (map stated_score_weight three_attacks) # 2)
                else 40%Q).
Proof.
  apply (severity_factor_exact three_attacks 8.5).
  - simpl. lia.
  - vm_compute. reflexivity.
Defined.

(** *** Counting distinct keys *)

Lemma tally_add_keys (k : hkey) (t : list (hkey * nat)) :
  map fst (tally_add k t) =
  if bool_decide (k ∈ map fst t) then map fst t else map fst t ++ [k].
Proof.
  induction t as [|[k' n] t IH]; cbn [tally_add map fst].
  - rewrite bool_decide_eq_false_2; [reflexivity|]. apply not_elem_of_nil.
  - unfold hkey_eqb. destruct (bool_decide_reflect (k = k')) as [->|Hne];
      cbn [map fst].
    + rewrite bool_decide_eq_true_2; [reflexivity|]. apply elem_of_cons. auto.
    + rewrite IH.
      destruct (bool_decide_reflect (k ∈ map fst t)).
      * rewrite bool_decide_eq_true_2; [reflexivity|]. apply elem_of_cons. auto.
      * rewrite bool_decide_eq_false_2; [reflexivity|].
        intros [?|?]%elem_of_cons; congruence.
Qed.

Lemma tally_from_keys (ks : list hkey) (t : list (hkey * nat)) :
  NoDup (map fst t) ->
  NoDup (map fst (fold_left (fun t k => tally_add k t) ks t)) /\
  forall k, k ∈ map fst (fold_left (fun t k => tally_add k t) ks t) <->
            k ∈ map fst t \/ k ∈ ks.
Proof.
  revert t. induction ks as [|k0 ks IH]; intros t Hnd; simpl.
  - split; [exact Hnd|]. intros k. rewrite elem_of_nil. tauto.
  - assert (Hnd' : NoDup (map fst (tally_add k0 t))).
    { rewrite tally_add_keys.
      destruct (bool_decide_reflect (k0 ∈ map fst t)) as [|Hnew]; [exact Hnd|].
      apply NoDup_app. split; [exact Hnd|]. split; [|apply NoDup_singleton].
      intros x Hx ->%list_elem_of_singleton. tauto. }
    destruct (IH _ Hnd') as [H1 H2]. split; [exact H1|].
    intros k. rewrite H2, tally_add_keys, elem_of_cons.
    destruct (bool_decide_reflect (k0 ∈ map fst t)) as [Hin|Hnew].
    + split; [tauto|]. intros [?|[->|?]]; auto.
    + rewrite elem_of_app, list_elem_of_singleton. tauto.
Qed.

(** The number of entries of a tally is the number of distinct keys. *)
Lemma tally_length (ks : list hkey) :
  length (tally ks) = length (remove_dups ks).
Proof.
  destruct (tally_from_keys ks [] (NoDup_nil_2 : NoDup (map fst (@nil (hkey * nat))))) as [Hnd Hin].
  fold (tally ks) in Hnd, Hin.
  rewrite <- (length_map fst (tally ks)).
  apply Permutation_length, NoDup_Permutation;
    [exact Hnd|apply NoDup_remove_dups|].
  intros k. rewrite Hin, elem_of_remove_dups. simpl. rewrite elem_of_nil. tauto.
Qed.

Lemma length_remove_dups_le {A} `{EqDecision A} (l : list A) :
  length (remove_dups l) <= length l.
Proof.
  induction l as [|a l IH]; simpl; [lia|].
  destruct (decide_rel elem_of a l); simpl; lia.
Qed.

Lemma mapM_length {A B} (f : A -> result B) (l : list A) (bs : list B) :
  mapM f l = inr bs -> length bs = length l.
Proof.
  revert bs. induction l as [|a l IH]; simpl; intros bs H.
  - by injection H as <-.
  - destruct (f a) as [e|b]; [discriminate|]. simpl in H.
    destruct (mapM f l) as [e|bs0]; [discriminate|]. simpl in H.
    injection H as <-. simpl. by rewrite (IH bs0 eq_refl).
Qed.

(** X9. For a list of at most 100 attacks whose attack types can be
    read, the diversity factor is exactly twice the number of distinct
    attack types, up to 7 of them, and the cap 15 from there on. *)
Theorem diversity_factor_exact (l : list value) (x : float) :
  length l <= 100 ->
  diversity_factor l = inr x ->
  exists types,
    mapM (fun a => let! ty := get a "attack_type" (VStr "Unknown") in
                   hash_key ty) l = inr types /\
    let distinct := length (remove_dups types) in
    float_is x (if (distinct <=? 7)%nat then inject_Z (2 * Z.of_nat distinct)
                else 15%Q).
Proof.
  intros Hlen. unfold diversity_factor.
  destruct (mapM _ l) as [e|types] eqn:Htypes; [discriminate|]. simpl.
  intros Hx. exists types. split; [reflexivity|]. simpl.
  rewrite tally_length in Hx.
  assert (Hd : length (remove_dups types) <= 100).
  { pose proof (length_remove_dups_le types) as H1.
    pose proof (mapM_length _ _ _ Htypes). lia. }
  pose proof diversity_checked as H.
  unfold diversity_exact_upto in H. rewrite forallb_forall in H.
  specialize (H (length (remove_dups types)) ltac:(apply in_seq; lia)).
  apply float_is_b_true in H as (x' & Hx' & Hq).
  assert (x' = x) as <- by congruence. exact Hq.
Qed.

Lemma diversity_factor_exact_witness :
  exists types,
    mapM (fun a => let! ty := get a "attack_type" (VStr "Unknown") in
                   hash_key ty) three_attacks = inr types /\
    let distinct := length (remove_dups types) in
    float_is 4 (if (distinct <=? 7)%nat then inject_Z (2 * Z.of_nat distinct)
                else 15%Q).
Proof.
  apply (diversity_factor_exact three_attacks 4).
  - simpl. lia.
  - vm_compute. reflexivity.
Defined.

Lemma single_country_checked : single_country_capped 100 = true.
Proof. vm_compute. reflexivity. Qed.

Lemma tally_repeat (k : hkey) (n m : nat) :
  fold_left (fun t k => tally_add k t) (repeat k n) [(k, m)] = [(k, m + n)].
Proof.
  revert m. induction n as [|n IH]; intros m; simpl.
  - f_equal. f_equal. lia.
  - unfold hkey_eqb. rewrite bool_decide_eq_true_2 by reflexivity.
    rewrite IH. f_equal. f_equal. lia.
Qed.

Lemma top_count_repeat (k : hkey) (n : nat) : top_count (repeat k (S n)) = S n.
Proof.
  unfold top_count, tally. simpl. rewrite tally_repeat. simpl. lia.
Qed.

Lemma target_countries_single (c : value) (l : list value) :
  Forall (targets_country c) l ->
  filter_mapM (contains "destination")
              (fun a => let! dst := getitem a "destination" in
                        getitem dst "country") l
  = inr (repeat c (length l)).
Proof.
  induction 1 as [|a l [Hd Hc] Hl IH]; simpl; [reflexivity|].
  rewrite Hd. simpl. rewrite Hc. simpl. rewrite IH. reflexivity.
Qed.

Lemma mapM_repeat {A B} (f : A -> result B) (a : A) (b : B) (n : nat) :
  f a = inr b -> mapM f (repeat a n) = inr (repeat b n).
Proof.
  intros H. induction n as [|n IH]; simpl; [reflexivity|].
  rewrite H. simpl. rewrite IH. reflexivity.
Qed.

(** X10. When every one of up to 100 attacks names the same destination
    country, the concentration factor is the cap, exactly 15. *)
Theorem concentration_single_country (c : value) (k : hkey) (l : list value) :
  l <> [] -> length l <= 100 ->
  hash_key c = inr k ->
  Forall (targets_country c) l ->
  exists x, concentration_factor l = inr x /\ float_is x 15.
Proof.
  intros Hne Hlen Hk Hall. unfold concentration_factor.
  rewrite (target_countries_single c l Hall). simpl.
  destruct (length l) as [|n] eqn:Hn; [by destruct l|].
  cbn [repeat is_empty].
  change (c :: repeat c n) with (repeat c (S n)).
  rewrite (mapM_repeat hash_key c k (S n) Hk). simpl bind.
  change (k :: repeat k n) with (repeat k (S n)).
  rewrite top_count_repeat, repeat_length.
  pose proof single_country_checked as H.
  unfold single_country_capped in H. rewrite forallb_forall in H.
  specialize (H (S n) ltac:(apply in_seq; lia)).
  apply float_is_b_true in H as (x & Hx & Hq).
  exists x. split; [exact Hx|exact Hq].
Qed.

Lemma concentration_single_country_witness :
  exists x,
    concentration_factor
      [sample_attack "2025-01-01T00:04:00Z" "High" "Port Scan" "Japan";
       sample_attack "2025-01-01T00:04:00Z" "Low" "HTTP Flood" "Japan"] = inr x /\
    float_is x 15.
Proof.
  apply (concentration_single_country (VStr "Japan") (HStr "Japan")).
  - discriminate.
  - simpl. lia.
  - reflexivity.
  - repeat constructor.
Defined.

(** ** The fan-out over a run *)






(** X13. A client that connects after any run is never sent the
    initial attacks: while the buffer is empty nothing is there to
    send, and once a record has been appended the slice
    [recent_attacks[-10:]] raises, so the client gets the confirmation
    followed by the error response. *)
Theorem handle_connect_never_sends_attacks (evs : list event) :
  let sent := handle_connect (recent_attacks (run evs)) in
  existsb is_initial_attacks sent = false /\
  (appended evs = [] ->
   sent = [ConnectionResponse "connected"
             "Successfully connected to attack tracker"]) /\
  (appended evs <> [] ->
   sent = [ConnectionResponse "connected"
             "Successfully connected to attack tracker";
           ConnectionResponse "error" "Connection established with errors"]).
Proof.
  intros sent. subst sent. rewrite run_recent_attacks.
  unfold handle_connect, deque_list. simpl items.
  destruct (appended evs) as [|a l] eqn:Happ.
  - simpl. repeat split; auto. congruence.
  - assert (Hne : is_empty (last_n MAX_ATTACKS (a :: l)) = false).
    { destruct (last_n MAX_ATTACKS (a :: l)) eqn:Hl; [|reflexivity].
      apply (f_equal length) in Hl. unfold last_n in Hl.
      rewrite length_drop in Hl. unfold MAX_ATTACKS in Hl. simpl in Hl. lia. }
    rewrite Hne. simpl. repeat split; auto. discriminate.
Qed.

(** ** The threat-intel pool, continued *)



(** X15. After a refresh that found at least one address, a call made
    less than [CACHE_DURATION] seconds later returns the same pool and
    requests nothing, whatever the network would answer now. *)
Theorem refresh_then_cached (net net' : string -> http_result)
    (t1 t2 : float) (st : intel_state) :
  cache_is_fresh t1 st = false ->
  snd (fst (fetch_real_threat_data net t1 st)) <> [] ->
  PyFloat.int_gt_float CACHE_DURATION (t2 - t1)%float = true ->
  let st1 := fst (fst (fetch_real_threat_data net t1 st)) in
  fetch_real_threat_data net' t2 st1 =
  (st1, snd (fst (fetch_real_threat_data net t1 st)), []).
Proof.
  intros Hstale Hne Hfresh. unfold fetch_real_threat_data in *.
  rewrite Hstale in *. simpl in *. unfold cache_is_fresh. simpl.
  rewrite Hfresh, bool_decide_eq_false_2 by exact Hne. reflexivity.
Qed.

Lemma refresh_then_cached_witness :
  fetch_real_threat_data failing_net 1060
    (fst (fst (fetch_real_threat_data one_list_net 1000 initial_intel_state))) =
  (fst (fst (fetch_real_threat_data one_list_net 1000 initial_intel_state)),
   snd (fst (fetch_real_threat_data one_list_net 1000 initial_intel_state)), []).
Proof.
  assert (Hstale : cache_is_fresh 1000 initial_intel_state = false)
    by (vm_compute; reflexivity).
  assert (Hne : snd (fst (fetch_real_threat_data one_list_net 1000
                            initial_intel_state)) <> [])
    by (vm_compute; discriminate).
  assert (Hfresh : PyFloat.int_gt_float CACHE_DURATION (1060 - 1000)%float
                   = true)
    by (vm_compute; reflexivity).
  exact (refresh_then_cached one_list_net failing_net 1000 1060
           initial_intel_state Hstale Hne Hfresh).
Defined.

(** X16. An empty pool is never served from the cache: every call then
    requests all eight sources, however recently the last refresh was.
    In particular a refresh on which every source failed is repeated by
    the very next call. *)
Theorem empty_pool_always_refetches (net net' : string -> http_result)
    (t1 t2 : float) (st : intel_state) :
  (threat_ips_cache st = [] ->
   snd (fetch_real_threat_data net t1 st) = map fst sources) /\
  (cache_is_fresh t1 st = false -> all_sources_fail net = true ->
   snd (fetch_real_threat_data net' t2
          (fst (fst (fetch_real_threat_data net t1 st))))
   = map fst sources).
Proof.
  assert (Hempty : forall n t s, threat_ips_cache s = [] ->
            snd (fetch_real_threat_data n t s) = map fst sources).
  { intros n t s Hs. unfold fetch_real_threat_data, cache_is_fresh.
    rewrite Hs. reflexivity. }
  split; [apply Hempty|].
  intros Hstale Hfail. apply Hempty.
  unfold fetch_real_threat_data. rewrite Hstale.
  cbn [fst snd threat_ips_cache].
  rewrite (flat_map_all_nil _ (fun src => source_fails net (fst src)));
    [|intros src; apply fetch_source_fails|exact Hfail].
  simpl list_to_set. apply elements_empty.
Qed.

(** *** Parsed lines *)










(** ** The geolocation cache *)

(** X18. A lookup of an address that is in the cache returns the cached
    location, requests nothing and leaves the cache as it is; and a
    location that a lookup has returned is returned by every later
    lookup of the address, from the cache, whatever the service would
    answer then. *)
Theorem cached_location_needs_no_request (geo geo' : string -> geo_result)
    (ip : string) (ip_cache : gmap string value) (location : value) :
  (ip_cache !! ip = Some location ->
   get_ip_location geo ip ip_cache = (ip_cache, Some location, [])) /\
  (snd (fst (get_ip_location geo ip ip_cache)) = Some location ->
   let ip_cache' := fst (fst (get_ip_location geo ip ip_cache)) in
   get_ip_location geo' ip ip_cache' = (ip_cache', Some location, [])).
Proof.
  split.
  - intros H. unfold get_ip_location. by rewrite H.
  - unfold get_ip_location.
    destruct (ip_cache !! ip) as [l|] eqn:Hc; simpl.
    + intros [= ->]. by rewrite Hc.
    + destruct (geo_lookup geo ip) as [e|[l|]]; simpl; try discriminate.
      intros [= ->]. by rewrite lookup_insert_eq.
Qed.

(** X19. A lookup never removes or changes an entry of the cache, and
    it adds an entry only for the address looked up and only when it
    returns a location: a failed lookup is not remembered, and the next
    lookup of the address asks the service again. *)
Theorem lookup_only_adds_successes (geo geo' : string -> geo_result)
    (ip : string) (ip_cache : gmap string value) :
  let r := get_ip_location geo ip ip_cache in
  let ip_cache' := fst (fst r) in
  (forall ip' l, ip_cache !! ip' = Some l -> ip_cache' !! ip' = Some l) /\
  (forall ip', ip' <> ip -> ip_cache' !! ip' = ip_cache !! ip') /\
  ip_cache' !! ip = snd (fst r) /\
  (snd (fst r) = None ->
   ip_cache' = ip_cache /\
   snd (get_ip_location geo' ip ip_cache') = [ip]).
Proof.
  intros r ip_cache'. subst r ip_cache'. unfold get_ip_location.
  destruct (ip_cache !! ip) as [l|] eqn:Hc; simpl.
  - repeat split; auto. discriminate.
  - destruct (geo_lookup geo ip) as [e|[l|]]; simpl.
    + repeat split; auto. rewrite Hc.
      by destruct (geo_lookup geo' ip) as [?|[?|]].
    + repeat split.
      * intros ip' l' H. destruct (decide (ip' = ip)) as [->|Hne];
          [congruence|]. by rewrite lookup_insert_ne.
      * intros ip' Hne. by rewrite lookup_insert_ne.
      * by rewrite lookup_insert_eq.
      * discriminate.
      * discriminate.
    + repeat split; auto. rewrite Hc.
      by destruct (geo_lookup geo' ip) as [?|[?|]].
Qed.

(** A lookup of a known address on an empty cache, and then again while
    the service is down. *)
Example lookup_twice :
  let r := get_ip_location sample_geo "203.0.113.9" ∅ in
  snd r = ["203.0.113.9"] /\
  get_ip_location failing_geo "203.0.113.9" (fst (fst r)) =
  (fst (fst r), snd (fst r), []) /\
  get_ip_location failing_geo "198.51.100.7" (fst (fst r)) =
  (fst (fst r), None, ["198.51.100.7"]).
Proof. cbv zeta. repeat split; vm_compute; reflexivity. Qed.

(** ** The intensity of the generator *)

Lemma ltb_leb (a b : float) : (a <? b)%float = true -> (a <=? b)%float = true.
Proof.
  rewrite FloatAxioms.ltb_spec, FloatAxioms.leb_spec. unfold SFltb, SFleb.
  by destruct (SFcompare _ _) as [[| |]|].
Qed.

(** [max(lo, min(hi, x))] lies between [lo] and [hi], whatever [x] is,
    a NaN and the infinities included. *)
Lemma clamp_between (lo hi x : float) :
  (lo <=? lo)%float = true -> (lo <=? hi)%float = true ->
  (hi <=? hi)%float = true ->
  float_between lo hi (float_max lo (PyFloat.min hi x)).
Proof.
  intros Hlo Hlh Hhi. unfold float_between, float_max, PyFloat.min.
  destruct (x <? hi)%float eqn:Hx.
  - destruct (lo <? x)%float eqn:Hl; auto using ltb_leb.
  - destruct (lo <? hi)%float eqn:Hl; auto using ltb_leb.
Qed.

(** X20. Whatever the intensity, the trend and the random draw are -
    infinities and NaNs included - [_update_intensity] returns a trend
    between -0.5 and 0.5 and an intensity between 0.3 and 2.0. *)
Theorem update_intensity_bounds (delta intensity trend : float) :
  let r := _update_intensity delta intensity trend in
  float_between f0_3 2 (fst r) /\ float_between (-0.5) 0.5 (snd r).
Proof.
  unfold _update_intensity. simpl. split; apply clamp_between; reflexivity.
Qed.

Lemma sleep_time_between (sleep_variation intensity : float) :
  match _calculate_sleep_time sleep_variation intensity with
  | inr s => float_between 1 5 s
  | inl e => e = ZeroDivisionError /\ (intensity =? 0)%float = true
  end.
Proof.
  unfold _calculate_sleep_time, float_truediv.
  destruct (intensity =? 0)%float; simpl; [auto|].
  apply clamp_between; reflexivity.
Qed.

Lemma between_not_zero (x : float) :
  float_between f0_3 2 x -> (x =? 0)%float = false.
Proof.
  unfold float_between. rewrite FloatAxioms.leb_spec, FloatAxioms.eqb_spec.
  intros [H _]. unfold SFleb, SFeqb in *.
  replace (Prim2SF f0_3)
    with (S754_finite false 5404319552844595 (-54)) in H
    by (vm_compute; reflexivity).
  replace (Prim2SF 0) with (S754_zero false) by (vm_compute; reflexivity).
  destruct (Prim2SF x) as [[|]|[|]| |[|] m e]; simpl in *; try discriminate;
    reflexivity.
Qed.

(** X21. However many iterations the generator has run and whatever it
    drew, the sleep time of every iteration is computed - the division
    by the intensity never fails - and lies between 1.0 and 5.0
    seconds; the intensity stays between 0.3 and 2.0 and the trend
    between -0.5 and 0.5. *)
Theorem generator_keeps_its_bounds (draws : list (float * float)) :
  exists intensity trend sleeps,
    generator_iterations draws 1 0 = inr (intensity, trend, sleeps) /\
    length sleeps = length draws /\
    Forall (float_between 1 5) sleeps /\
    float_between f0_3 2 intensity /\
    float_between (-0.5) 0.5 trend.
Proof.
  assert (Hgen : forall i t,
    float_between f0_3 2 i -> float_between (-0.5) 0.5 t ->
    exists intensity trend sleeps,
      generator_iterations draws i t = inr (intensity, trend, sleeps) /\
      length sleeps = length draws /\
      Forall (float_between 1 5) sleeps /\
      float_between f0_3 2 intensity /\
      float_between (-0.5) 0.5 trend).
  { induction draws as [|[delta variation] draws IH]; intros i t Hi Ht.
    - exists i, t, []. simpl. auto.
    - cbn [generator_iterations].
      assert (Hb : float_between f0_3 2 (fst (_update_intensity delta i t)) /\
                   float_between (-0.5) 0.5 (snd (_update_intensity delta i t)))
        by (unfold _update_intensity; simpl; split; apply clamp_between;
            reflexivity).
      destruct Hb as [Hi' Ht'].
      destruct (_update_intensity delta i t) as [i' t']. simpl in Hi', Ht'.
      pose proof (sleep_time_between variation i') as Hs.
      destruct (_calculate_sleep_time variation i') as [e|s].
      + destruct Hs as [_ Hz]. rewrite (between_not_zero i' Hi') in Hz.
        discriminate.
      + destruct (IH i' t' Hi' Ht') as (i2 & t2 & sl & Hrun & Hlen & Hall & H2).
        simpl bind. rewrite Hrun. simpl.
        exists i2, t2, (s :: sl). simpl. split; [reflexivity|].
        split; [by rewrite Hlen|]. split; [by constructor|exact H2]. }
  apply Hgen; split; reflexivity.
Qed.

(** ** Input validation *)

Section ValidationFacts.

Variable int_of_str : string -> option Z.


(** X23. [validate_positive_int] of [utils/validators.py] reports no
    error exactly when the value is missing, empty, or a number between
    1 and the maximum, which it then returns unchanged; and with a
    default between 1 and the maximum, what it returns is always
    between 1 and the maximum. *)
Theorem validators_positive_int (value : option string) (default max_value : Z)
    (field_name : string) :
  let r := Validators.validate_positive_int int_of_str value default max_value
             field_name in
  (snd r = None <->
   value = None \/ value = Some "" \/
   exists s num, value = Some s /\ int_of_str s = Some num /\
                 (1 <= num <= max_value)%Z /\ fst r = num) /\
  ((1 <= default <= max_value)%Z -> (1 <= fst r <= max_value)%Z).
Proof.
  intros r. subst r. unfold Validators.validate_positive_int.
  destruct value as [s|]; simpl; [|split; [split; auto|auto]].
  destruct (String.eqb_spec s "") as [->|Hne]; simpl;
    [split; [split; auto|auto]|].
  destruct (int_of_str s) as [num|] eqn:Hnum; simpl.
  - destruct (Z.ltb_spec num 1); simpl.
    + split; [|auto]. split; [discriminate|].
      intros [?|[?|(s' & n' & [= <-] & Hn' & ? & _)]]; try congruence.
      assert (n' = num) by congruence. lia.
    + destruct (Z.ltb_spec max_value num); simpl.
      * split; [|lia]. split; [discriminate|].
        intros [?|[?|(s' & n' & [= <-] & Hn' & ? & _)]]; try congruence.
        assert (n' = num) by congruence. lia.
      * split; [|lia]. split; [|reflexivity].
        intros _. right. right. exists s, num. auto.
  - split; [|auto]. split; [discriminate|].
    intros [?|[?|(s' & n' & [= <-] & Hn' & _)]]; congruence.
Qed.

(** X24. The two [validate_positive_int] agree on every input but one
    kind: for a number below 1, [app.py] returns 1 where
    [utils/validators.py] returns the default. The default is taken
    between 1 and the maximum. *)
Theorem positive_int_versions (value : option string) (default max_value : Z)
    (field_name : string) :
  (1 <= default <= max_value)%Z ->
  let a := validate_positive_int int_of_str value default max_value in
  let v := fst (Validators.validate_positive_int int_of_str value default
                  max_value field_name) in
  a = v \/
  exists s num, value = Some s /\ int_of_str s = Some num /\ (num < 1)%Z /\
                a = 1%Z /\ v = default.
Proof.
  intros Hd a v. subst a v.
  unfold validate_positive_int, Validators.validate_positive_int, int_or_default.
  destruct value as [s|]; simpl; [|left; lia].
  destruct (String.eqb_spec s "") as [->|Hne]; simpl; [left; lia|].
  destruct (int_of_str s) as [num|] eqn:Hnum; simpl; [|by left].
  destruct (Z.ltb_spec num 1); simpl.
  - right. exists s, num. repeat split; auto; lia.
  - destruct (Z.ltb_spec max_value num); simpl; left; lia.
Qed.

End ValidationFacts.


Lemma positive_int_versions_witness :
  validate_positive_int sample_int_of_str (Some "-3") 100 1000 = 1%Z /\
  fst (Validators.validate_positive_int sample_int_of_str (Some "-3") 100 1000
         "limit") = 100%Z /\
  (validate_positive_int sample_int_of_str (Some "-3") 100 1000 =
   fst (Validators.validate_positive_int sample_int_of_str (Some "-3") 100 1000
          "limit") \/
   exists s num, Some "-3" = Some s /\ sample_int_of_str s = Some num /\
                 (num < 1)%Z /\
                 validate_positive_int sample_int_of_str (Some "-3") 100 1000
                   = 1%Z /\
                 fst (Validators.validate_positive_int sample_int_of_str
                        (Some "-3") 100 1000 "limit") = 100%Z).
Proof.
  assert (Hd : (1 <= 100 <= 1000)%Z) by lia.
  split; [reflexivity|]. split; [reflexivity|].
  exact (positive_int_versions sample_int_of_str (Some "-3") 100 1000 "limit"
           Hd).
Defined.

Lemma length_lstrip_list (l : list ascii) : length (lstrip_list l) <= length l.
Proof.
  induction l as [|c l IH]; simpl; [lia|]. destruct (is_space c); simpl; lia.
Qed.




Lemma first_match_None (value_lower : string) (allowed_values : list string) :
  Validators.first_match value_lower allowed_values = None ->
  forall a, In a allowed_values -> value_lower <> lower a.
Proof.
  induction allowed_values as [|a l IH]; simpl; [intros _ ? []|].
  destruct (String.eqb_spec value_lower (lower a)) as [->|Hne]; [discriminate|].
  intros H a' [<-|Ha']; [exact Hne|by apply IH].
Qed.


(** Severities as a client may write them. *)
Example enum_field_examples :
  Validators.validate_enum_field (Some " critical ") "severity"
    attack_severities false = (Some "Critical", None) /\
  Validators.validate_enum_field (Some "critical") "severity"
    attack_severities true =
  (None, Some "Invalid severity: must be one of Low, Medium, High, Critical") /\
  Validators.validate_string_field (Some "  Port Scan  ") "type" 4 true =
  (Some "Port", Some "type truncated to 4 characters").
Proof. vm_compute. auto. Qed.
